(** * Mock generator of expo-modules-test-core: type mapping and declaration building

    Shallow embedding of the mock generator (maybeUnwrapSwiftArray,
    isSwiftArray, mapSwiftTypeToTsType, getMockReturnStatements,
    wrapWithAsync, getMockedFunctions, getTypesToMock, getMockedTypes,
    getMockForModule, generateMocks) together with the properties stated
    about it, followed by the resolution of native modules
    (requireNativeModule), the Babel preset (babelPresetExpo, getAliasPlugin,
    hasModule, getBundler) and the open state of the collapsible section of
    the documentation site.

    Strings are sequences of characters.  The generator compares whole
    strings, tests the first and the last character against the ASCII
    brackets and slices by offsets taken from the length of the same
    string, so the width of a character does not enter any result. *)

From Equations Require Import Equations.
From Equations.Prop Require Import Logic.
From Stdlib Require Import String Ascii List Arith Bool Lia.
Import ListNotations.

Local Open Scope string_scope.
Local Open Scope list_scope.
Set Warnings "-register-all".

(** ** String primitives of the host language *)

Module JsString.

(** [String.prototype.startsWith(searchString)]. *)
Definition startsWith (s searchString : string) : bool :=
  String.prefix searchString s.

(** [String.prototype.endsWith(searchString)]: the last
    [searchString.length] characters of [s] are [searchString]. *)
Definition endsWith (s searchString : string) : bool :=
  Nat.leb (String.length searchString) (String.length s)
  && String.eqb
       (String.substring (String.length s - String.length searchString)
                         (String.length searchString) s)
       searchString.

(** [String.prototype.substring(indexStart, indexEnd)]: both indices are
    clamped to the length and swapped when out of order.  A negative
    index clamps to 0, which is what truncated subtraction on [nat]
    yields for [length - 1] on the empty string. *)
Definition substring (s : string) (indexStart indexEnd : nat) : string :=
  let a := Nat.min indexStart (String.length s) in
  let b := Nat.min indexEnd (String.length s) in
  String.substring (Nat.min a b) (Nat.max a b - Nat.min a b) s.

(** Truthiness of a string value: only the empty string is falsy. *)
Definition truthy (s : string) : bool := negb (String.eqb s "").

End JsString.

(** ** Syntax tree nodes built through [ts.factory] *)

(** The members of [ts.SyntaxKind] the generator mentions. *)
Inductive SyntaxKind : Type :=
| AnyKeyword
| StringKeyword
| BooleanKeyword
| NumberKeyword
| VoidKeyword
| ExportKeyword
| AsyncKeyword
| TypeReference
| ArrayType.

Definition SyntaxKind_eqb (a b : SyntaxKind) : bool :=
  match a, b with
  | AnyKeyword, AnyKeyword
  | StringKeyword, StringKeyword
  | BooleanKeyword, BooleanKeyword
  | NumberKeyword, NumberKeyword
  | VoidKeyword, VoidKeyword
  | ExportKeyword, ExportKeyword
  | AsyncKeyword, AsyncKeyword
  | TypeReference, TypeReference
  | ArrayType, ArrayType => true
  | _, _ => false
  end.

(** Type nodes: [createKeywordTypeNode kind],
    [createTypeReferenceNode typeName typeArguments] (the arguments are
    absent unless given) and [createArrayTypeNode elementType]. *)
Inductive TypeNode : Type :=
| KeywordTypeNode (kind : SyntaxKind)
| TypeReferenceNode (typeName : string) (typeArguments : option (list TypeNode))
| ArrayTypeNode (elementType : TypeNode).

(** The [kind] tag of a type node. *)
Definition kind (n : TypeNode) : SyntaxKind :=
  match n with
  | KeywordTypeNode k => k
  | TypeReferenceNode _ _ => TypeReference
  | ArrayTypeNode _ => ArrayType
  end.

(** ** The type mapper *)

Definition maybeUnwrapSwiftArray (type : string) : string :=
  let isArray := JsString.startsWith type "[" && JsString.endsWith type "]" in
  if negb isArray then type
  else
    let innerType := JsString.substring type 1 (String.length type - 1) in
    innerType.

Definition isSwiftArray (type : string) : bool :=
  JsString.startsWith type "[" && JsString.endsWith type "]".

(** Length of a slice taken inside the string. *)
Lemma substring_length (s : string) (n m : nat) :
  n + m <= String.length s ->
  String.length (String.substring n m s) = m.
Proof.
  revert n m; induction s as [|c s IH]; intros n m Hle; simpl in *.
  - assert (n = 0) by lia; assert (m = 0) by lia; subst; reflexivity.
  - destruct n as [|n].
    + destruct m as [|m]; simpl; [reflexivity|].
      f_equal. apply IH. lia.
    + apply IH. lia.
Qed.

(** A string that opens with a bracket and closes with one has at least
    two characters. *)
Lemma isSwiftArray_length (type : string) :
  isSwiftArray type = true -> 2 <= String.length type.
Proof.
  unfold isSwiftArray, JsString.startsWith, JsString.endsWith.
  destruct type as [|a [|b t]]; [discriminate| |simpl; lia].
  destruct a as [[] [] [] [] [] [] [] []]; vm_compute; discriminate.
Qed.

(** Stripping one bracket pair removes exactly two characters. *)
Lemma maybeUnwrapSwiftArray_length (type : string) :
  isSwiftArray type = true ->
  String.length (maybeUnwrapSwiftArray type) = String.length type - 2.
Proof.
  intros H. pose proof (isSwiftArray_length type H) as Hlen.
  unfold maybeUnwrapSwiftArray. unfold isSwiftArray in H. rewrite H. simpl.
  unfold JsString.substring.
  rewrite substring_length; lia.
Qed.

Lemma maybeUnwrapSwiftArray_shrinks (type : string) :
  isSwiftArray type = true ->
  String.length (maybeUnwrapSwiftArray type) < String.length type.
Proof.
  intros H. rewrite (maybeUnwrapSwiftArray_length type H).
  pose proof (isSwiftArray_length type H). lia.
Qed.

(** The [switch] over the recognised Swift type names. *)
Definition switchSwiftType (type : string) : TypeNode :=
  if String.eqb type "unknown" then KeywordTypeNode AnyKeyword
  else if String.eqb type "String" then KeywordTypeNode StringKeyword
  else if String.eqb type "Bool" then KeywordTypeNode BooleanKeyword
  else if String.eqb type "Int" then KeywordTypeNode NumberKeyword
  else if String.eqb type "Float" then KeywordTypeNode NumberKeyword
  else if String.eqb type "Double" then KeywordTypeNode NumberKeyword
  else TypeReferenceNode type None.

Equations mapSwiftTypeToTsType (type : string) : TypeNode
  by wf (String.length type) lt :=
  mapSwiftTypeToTsType type with negb (JsString.truthy type) => {
    | true := KeywordTypeNode VoidKeyword
    | false with inspect (isSwiftArray type) => {
      | exist _ true isArr :=
          ArrayTypeNode (mapSwiftTypeToTsType (maybeUnwrapSwiftArray type))
      | exist _ false _ := switchSwiftType type } }.
Next Obligation.
  apply maybeUnwrapSwiftArray_shrinks; assumption.
Qed.

(** The call [mapSwiftTypeToTsType(x)] where [x] may be absent
    ([types?.returnType]): [!type] holds for [undefined], so the first
    branch is taken. *)
Definition mapSwiftTypeToTsType_opt (type : option string) : TypeNode :=
  match type with
  | None => KeywordTypeNode VoidKeyword
  | Some type => mapSwiftTypeToTsType type
  end.

(** ** Expressions, statements and declarations *)

Inductive Expression : Type :=
| NullLiteral
| StringLiteral (text : string)
| FalseLiteral
| NumericLiteral (text : string)
| ArrayLiteralExpression (elements : list Expression).

Inductive Statement : Type :=
| ReturnStatement (expression : Expression).

(** [createToken kind]. *)
Definition Token : Type := SyntaxKind.
Definition createToken (k : SyntaxKind) : Token := k.

(** [createBlock statements multiLine]. *)
Record Block : Type := createBlock {
  statements : list Statement;
  multiLine : bool
}.

(** [createParameterDeclaration modifiers dotDotDotToken name questionToken
    type initializer]. *)
Record ParameterDeclaration : Type := createParameterDeclaration {
  pd_modifiers : option (list Token);
  pd_dotDotDotToken : option Token;
  pd_name : string;
  pd_questionToken : option Token;
  pd_type : TypeNode;
  pd_initializer : option Expression
}.

(** [createFunctionDeclaration modifiers asteriskToken name typeParameters
    parameters type body]. *)
Record FunctionDeclaration : Type := createFunctionDeclaration {
  fd_modifiers : list Token;
  fd_asteriskToken : option Token;
  fd_name : string;
  fd_typeParameters : option (list string);
  fd_parameters : list ParameterDeclaration;
  fd_type : TypeNode;
  fd_body : Block
}.

(** [createTypeAliasDeclaration modifiers name typeParameters type]. *)
Record TypeAliasDeclaration : Type := createTypeAliasDeclaration {
  ta_modifiers : list Token;
  ta_name : string;
  ta_typeParameters : option (list string);
  ta_type : TypeNode
}.

(** The union [ts.TypeAliasDeclaration | ts.FunctionDeclaration]. *)
Inductive Declaration : Type :=
| TypeAliasDecl (d : TypeAliasDeclaration)
| FunctionDecl (d : FunctionDeclaration).

Definition modifiersOf (d : Declaration) : list Token :=
  match d with
  | TypeAliasDecl a => ta_modifiers a
  | FunctionDecl f => fd_modifiers f
  end.

(** ** Input data: closures and module definitions *)

Record ClosureParameter : Type := mkParameter {
  param_name : string;
  typename : string
}.

(** Modelled from the spec: the declaration of [ClosureTypes] (types.ts) is
    not part of the sources; it is an ordered sequence of parameters and an
    optional return type name. *)
Record ClosureTypes : Type := mkClosureTypes {
  parameters : list ClosureParameter;
  returnType : option string
}.

(** Modelled from the spec: the declaration of [Closure] (types.ts) is not
    part of the sources; it is a name and a [ClosureTypes] record, which the
    generator reads through [?.] and so may be absent. *)
Record Closure : Type := mkClosure {
  closure_name : string;
  types : option ClosureTypes
}.

(** Modelled from the spec: the declaration of [OutputModuleDefinition]
    (types.ts) is not part of the sources; it is a named entity with three
    sequences of closures (plain, async and synchronous functions). *)
Record OutputModuleDefinition : Type := mkModule {
  module_name : string;
  functions : list Closure;
  asyncFunctions : list Closure;
  syncFunctions : list Closure
}.

(** A property value of a module object, as [Object.values] lists them. *)
Inductive PropertyValue : Type :=
| StringValue (s : string)
| ArrayValue (a : list Closure).

Definition Object_values (module : OutputModuleDefinition) : list PropertyValue :=
  [ StringValue (module_name module);
    ArrayValue (functions module);
    ArrayValue (asyncFunctions module);
    ArrayValue (syncFunctions module) ].

(** ** The default-value synthesizer *)

(** The argument is a node object, which is never falsy, so the guard
    [if (!tsReturnType)] never fires; the [switch] falls through to the
    final [return []] for every kind without a case. *)
Definition getMockReturnStatements (tsReturnType : TypeNode) : list Statement :=
  match kind tsReturnType with
  | AnyKeyword => [ReturnStatement NullLiteral]
  | StringKeyword => [ReturnStatement (StringLiteral "")]
  | BooleanKeyword => [ReturnStatement FalseLiteral]
  | NumberKeyword => [ReturnStatement (NumericLiteral "0")]
  | VoidKeyword => []
  | ArrayType => [ReturnStatement (ArrayLiteralExpression [])]
  | _ => []
  end.

Definition wrapWithAsync (tsType : TypeNode) : TypeNode :=
  TypeReferenceNode "Promise" (Some [tsType]).

(** ** The declaration builder *)

(** [xs.filter((f) => !!f)] on an array whose entries may be [undefined]. *)
Definition filterDefined {A : Type} (xs : list (option A)) : list A :=
  flat_map (fun f => match f with Some x => [x] | None => [] end) xs.

(** The arrow function mapped over the closures by [getMockedFunctions]. *)
Definition mockedFunction (async : bool) (fnStructure : Closure) : FunctionDeclaration :=
  let name := closure_name fnStructure in
  let returnType :=
    mapSwiftTypeToTsType_opt
      (match types fnStructure with
       | Some t => returnType t
       | None => None
       end) in
  let func :=
    createFunctionDeclaration
      (filterDefined
         [ Some (createToken ExportKeyword);
           if async then Some (createToken AsyncKeyword) else None ])
      None
      name
      None
      (match types fnStructure with
       | Some t =>
           map (fun p =>
                  createParameterDeclaration
                    None None (param_name p) None
                    (mapSwiftTypeToTsType (typename p)) None)
               (parameters t)
       | None => []
       end)
      (if async then wrapWithAsync returnType else returnType)
      (createBlock (getMockReturnStatements returnType) true) in
  func.

Definition getMockedFunctions (functions : list Closure) (async : bool)
  : list FunctionDeclaration :=
  map (mockedFunction async) functions.

(** ** The module scanner *)

(** [new Set(iterable)] over strings, kept in insertion order: adding a
    member that is already present changes nothing. *)
Module JsSet.

Definition has (s : list string) (x : string) : bool :=
  existsb (String.eqb x) s.

Definition add (s : list string) (x : string) : list string :=
  if has s x then s else s ++ [x].

Definition from (xs : list string) : list string :=
  fold_left add xs [].

End JsSet.

(** The body of the [forEach] over the closure types: pushes onto
    [foundTypes], which is threaded through as state. *)
Definition scanTypes (foundTypes : list string) (types : option ClosureTypes)
  : list string :=
  match types with
  | None => foundTypes
  | Some types =>
      let foundTypes :=
        fold_left
          (fun acc p => acc ++ [maybeUnwrapSwiftArray (typename p)])
          (parameters types) foundTypes in
      match returnType types with
      | Some r =>
          if JsString.truthy r
          then foundTypes ++ [maybeUnwrapSwiftArray r]
          else foundTypes
      | None => foundTypes
      end
  end.

Definition getTypesToMock (module : OutputModuleDefinition) : list string :=
  let foundTypes :=
    fold_left scanTypes
      (flat_map
         (fun t => match t with
                   | ArrayValue t => map (fun t2 => types t2) t
                   | StringValue _ => []
                   end)
         (Object_values module))
      [] in
  JsSet.from
    (filter
       (fun ft => SyntaxKind_eqb (kind (mapSwiftTypeToTsType ft)) TypeReference)
       foundTypes).

Definition getMockedTypes (types : list string) : list TypeAliasDeclaration :=
  map (fun type =>
         let name := type in
         let typeAlias :=
           createTypeAliasDeclaration
             [createToken ExportKeyword]
             name
             None
             (KeywordTypeNode AnyKeyword) in
         typeAlias)
      types.

Definition getMockForModule (module : OutputModuleDefinition) : list Declaration :=
  [] ++ map TypeAliasDecl (getMockedTypes (getTypesToMock module))
     ++ map FunctionDecl (getMockedFunctions (functions module) false)
     ++ map FunctionDecl (getMockedFunctions (asyncFunctions module) true).

(** ** The driver *)

Section GenerateMocks.

(** [process.cwd()] as read when the file is loaded. *)
Variable directoryPath : string.

(** [path.join]. *)
Variable path_join : list string -> string.

(** The file system and the two calls made on it; [None] stands for a
    call that throws. *)
Variable FileSystem : Type.
Variable mkdirSync : FileSystem -> string -> option FileSystem.
Variable writeFileSync : FileSystem -> string -> string -> option FileSystem.

(** Printing the declarations against the source file of the given name,
    transpiling the text and formatting the result; [None] stands for a
    step that throws. *)
Variable emit : string -> list Declaration -> option string.

(** The path of the file written for a module. *)
Definition mockFilePath (m : OutputModuleDefinition) : string :=
  path_join [directoryPath; "mocks"; (module_name m ++ ".ts")%string].

(** The loop over the modules: the file system after the run, and whether
    the run completed rather than stopped at a throwing step. *)
Fixpoint generateMocks (modules : list OutputModuleDefinition)
    (fs : FileSystem) : FileSystem * bool :=
  match modules with
  | [] => (fs, true)
  | m :: modules =>
      let resultFile := (module_name m ++ ".ts")%string in
      match mkdirSync fs (path_join [directoryPath; "mocks"]) with
      | None => (fs, false)
      | Some fs =>
          let filePath := mockFilePath m in
          let mock := getMockForModule m in
          match emit resultFile mock with
          | None => (fs, false)
          | Some prettyJs =>
              match writeFileSync fs filePath prettyJs with
              | None => (fs, false)
              | Some fs => generateMocks modules fs
              end
          end
      end
  end.

End GenerateMocks.

(** An in-memory file system to run the driver on: files are kept as a
    list of writes, the latest first, and every call succeeds. *)
Module MemoryFs.

Definition FileSystem : Type := list (string * string).

Definition mkdirSync (fs : FileSystem) (dir : string) : option FileSystem :=
  Some fs.

Definition writeFileSync (fs : FileSystem) (p content : string)
  : option FileSystem :=
  Some ((p, content) :: fs).

Fixpoint readFile (fs : FileSystem) (p : string) : option string :=
  match fs with
  | [] => None
  | (q, content) :: fs => if String.eqb q p then Some content else readFile fs p
  end.

Definition path_join (parts : list string) : string :=
  String.concat "/" parts.

(** An emitter that writes the number of declarations as a row of marks
    and fails on the file [Bad.ts]. *)
Definition emit (fileName : string) (mock : list Declaration) : option string :=
  if String.eqb fileName "Bad.ts" then None
  else Some (String.concat "" (map (fun _ => "*") mock)).

End MemoryFs.

(** ** Auxiliary definitions used in the statements *)

(** The Swift array syntax around an element type name. *)
Definition swiftArrayOf (T : string) : string := ("[" ++ T ++ "]")%string.

(** The mapper run with a bound on the depth of its call stack: every
    call consumes one unit and [None] reports that the bound was reached
    before a result was produced. *)
Fixpoint mapSwiftTypeToTsType_fuel (fuel : nat) (type : string) : option TypeNode :=
  match fuel with
  | 0 => None
  | S fuel =>
      if negb (JsString.truthy type) then Some (KeywordTypeNode VoidKeyword)
      else if isSwiftArray type
           then option_map ArrayTypeNode
                  (mapSwiftTypeToTsType_fuel fuel (maybeUnwrapSwiftArray type))
           else Some (switchSwiftType type)
  end.

(** [ts.tokenToString] on the keyword kinds; the two node kinds are not
    tokens and have no text. *)
Definition tokenToString (k : SyntaxKind) : string :=
  match k with
  | AnyKeyword => "any"
  | StringKeyword => "string"
  | BooleanKeyword => "boolean"
  | NumberKeyword => "number"
  | VoidKeyword => "void"
  | ExportKeyword => "export"
  | AsyncKeyword => "async"
  | TypeReference | ArrayType => ""
  end.

(** Textual form of a type node as the printer that [generateMocks] obtains
    from [ts.createPrinter] writes it: a keyword node is its keyword, a
    type reference is its name followed by its type arguments in angle
    brackets when it has any, and an array type is its element type
    followed by an empty bracket pair. *)
Fixpoint printTypeNode (n : TypeNode) : string :=
  match n with
  | KeywordTypeNode k => tokenToString k
  | TypeReferenceNode typeName None => typeName
  | TypeReferenceNode typeName (Some typeArguments) =>
      (typeName ++ "<"
         ++ String.concat ", " (map printTypeNode typeArguments) ++ ">")%string
  | ArrayTypeNode elementType => (printTypeNode elementType ++ "[]")%string
  end.

(** The mapped return type of a closure, as the builder computes it. *)
Definition mappedReturnType (c : Closure) : TypeNode :=
  mapSwiftTypeToTsType_opt
    (match types c with Some t => returnType t | None => None end).

(** The type names a closure mentions, in the order the scanner visits
    them: the parameter types, then the return type when it is present and
    not empty. *)
Definition closureTypeNames (c : Closure) : list string :=
  match types c with
  | None => []
  | Some t =>
      map typename (parameters t)
      ++ match returnType t with
         | Some r => if JsString.truthy r then [r] else []
         | None => []
         end
  end.

(** The closures held by the array-valued properties of a module. *)
Definition moduleClosures (module : OutputModuleDefinition) : list Closure :=
  functions module ++ asyncFunctions module ++ syncFunctions module.

(** Repeated stripping of bracket pairs down to the innermost name, the
    reading under which nested arrays are unwrapped completely. *)
Fixpoint unwrapSwiftArrayFully (fuel : nat) (type : string) : string :=
  match fuel with
  | 0 => type
  | S fuel =>
      if isSwiftArray type
      then unwrapSwiftArrayFully fuel (maybeUnwrapSwiftArray type)
      else type
  end.

(** Number of array wrappers around the innermost element type. *)
Fixpoint arrayDepth (n : TypeNode) : nat :=
  match n with
  | ArrayTypeNode elementType => S (arrayDepth elementType)
  | _ => 0
  end.

(** The element type under all array wrappers. *)
Fixpoint innermostType (n : TypeNode) : TypeNode :=
  match n with
  | ArrayTypeNode elementType => innermostType elementType
  | _ => n
  end.

(** The six Swift names the [switch] recognises. *)
Definition recognisedNames : list string :=
  ["unknown"; "String"; "Bool"; "Int"; "Float"; "Double"].


(** The filter of the scanner: the name maps to a type reference. *)
Definition isTypeReferenceName (ft : string) : bool :=
  SyntaxKind_eqb (kind (mapSwiftTypeToTsType ft)) TypeReference.

(** The shape of a type node the mapper can build: one of the five type
    keywords, a reference without type arguments whose name is not mapped
    to anything else, or an array of such a node. *)
Fixpoint mappedShape (n : TypeNode) : bool :=
  match n with
  | KeywordTypeNode k =>
      existsb (SyntaxKind_eqb k)
        [AnyKeyword; StringKeyword; BooleanKeyword; NumberKeyword; VoidKeyword]
  | TypeReferenceNode typeName None =>
      JsString.truthy typeName
      && negb (isSwiftArray typeName)
      && negb (existsb (String.eqb typeName) recognisedNames)
  | TypeReferenceNode _ (Some _) => false
  | ArrayTypeNode elementType => mappedShape elementType
  end.

(** The name of the closure's return type, absent when the closure has no
    types record or the record has no return type. *)
Definition returnTypeName (c : Closure) : option string :=
  match types c with Some t => returnType t | None => None end.

(** The parameters of a closure, none when it has no types record. *)
Definition closureParameters (c : Closure) : list ClosureParameter :=
  match types c with Some t => parameters t | None => [] end.

(** ** The collapsible section of the documentation site *)

Module Collapsible.

(** [String.prototype.split(separator)] with a one-character separator:
    the pieces between the occurrences of the separator, of which there is
    always at least one. *)
Fixpoint split (separator : ascii) (s : string) : list string :=
  match s with
  | EmptyString => [EmptyString]
  | String c rest =>
      if Ascii.eqb c separator then EmptyString :: split separator rest
      else match split separator rest with
           | piece :: pieces => String c piece :: pieces
           | [] => [String c EmptyString]
           end
  end.

(** The [hash] constant of the effect: the second piece of the path split
    at the hash sign, [undefined] when there is none. *)
Definition hashOf (asPath : string) : option string :=
  let splitUrl := split "#" asPath in
  if Nat.eqb (length splitUrl) 0 then None else nth_error splitUrl 1.

(** The guard of the effect: [hash && hash === '#' + heading.current.slug]. *)
Definition hashMatches (asPath slug : string) : bool :=
  match hashOf asPath with
  | Some hash => JsString.truthy hash && String.eqb hash ("#" ++ slug)%string
  | None => false
  end.

(** The effect that runs when [asPath] changes, on the [open] state. *)
Definition hashEffect (asPath slug : string) (open : bool) : bool :=
  if hashMatches asPath slug then true else open.

(** The initial state [props.open ?? false]. *)
Definition initialOpen (open : option bool) : bool :=
  match open with Some b => b | None => false end.

(** [onToggle]: [setOpen(!open)]. *)
Definition onToggle (open : bool) : bool := negb open.

(** What happens to a mounted component: the path changes, which runs the
    effect, or the summary is clicked. *)
Inductive Event : Type :=
| PathChanged (asPath : string)
| Clicked.

Definition step (slug : string) (open : bool) (e : Event) : bool :=
  match e with
  | PathChanged asPath => hashEffect asPath slug open
  | Clicked => onToggle open
  end.

(** The state after mounting with the given prop and path (the effect
    runs once on mount) and then handling the events in order. *)
Definition run (slug : string) (openProp : option bool) (asPath : string)
    (events : list Event) : bool :=
  fold_left (step slug) events (hashEffect asPath slug (initialOpen openProp)).


(** Whether the character occurs in the string. *)
Fixpoint occurs (c : ascii) (s : string) : bool :=
  match s with
  | EmptyString => false
  | String d rest => Ascii.eqb d c || occurs c rest
  end.

End Collapsible.

(** ** Values of the host language *)

Module Js.

(** Values, as far as truthiness, nullishness and comparison with a string
    tell them apart. *)
Inductive JsValue : Type :=
| JsUndefined
| JsNull
| JsBoolean (b : bool)
| JsNumber (n : nat)
| JsNaN
| JsStringValue (s : string)
| JsObject (reference : nat).

(** The operand of [??] and [?.] counts as missing. *)
Definition isNullish (v : JsValue) : bool :=
  match v with
  | JsUndefined | JsNull => true
  | _ => false
  end.

(** Conversion to boolean. *)
Definition truthy (v : JsValue) : bool :=
  match v with
  | JsUndefined | JsNull | JsNaN => false
  | JsBoolean b => b
  | JsNumber n => negb (Nat.eqb n 0)
  | JsStringValue s => JsString.truthy s
  | JsObject _ => true
  end.

(** [a ?? b]. *)
Definition nullishCoalesce (a b : JsValue) : JsValue :=
  if isNullish a then b else a.

(** [v === 'literal']. *)
Definition isString (v : JsValue) (literal : string) : bool :=
  match v with
  | JsStringValue s => String.eqb s literal
  | _ => false
  end.

End Js.

(** ** Resolution of native modules *)

Module NativeModules.

Import Js.

(** An object read by key: the value of the property, [undefined] when
    there is none. *)
Definition ModuleTable : Type := string -> JsValue.

(** [ExpoObject]: the [modules] table may be undefined. *)
Record ExpoObject : Type := mkExpo {
  modules : option ModuleTable
}.

(** The two globals the function reads. *)
Record Globals : Type := mkGlobals {
  expo : option ExpoObject;
  ExpoModules : option ModuleTable
}.

(** A call either returns a value or throws an [Error] with a message. *)
Inductive Completion : Type :=
| Return (v : JsValue)
| Throw (message : string).

(** [globalThis.expo?.modules?.[moduleName]]. *)
Definition expoModule (globalThis : Globals) (moduleName : string) : JsValue :=
  match expo globalThis with
  | Some e =>
      match modules e with
      | Some table => table moduleName
      | None => JsUndefined
      end
  | None => JsUndefined
  end.

(** [globalThis.ExpoModules?.[moduleName]]. *)
Definition legacyModule (globalThis : Globals) (moduleName : string) : JsValue :=
  match ExpoModules globalThis with
  | Some table => table moduleName
  | None => JsUndefined
  end.

Definition requireNativeModule
    (globalThis : Globals) (NativeModulesProxy : ModuleTable)
    (moduleName : string) : Completion :=
  let nativeModule :=
    nullishCoalesce
      (nullishCoalesce (expoModule globalThis moduleName)
                       (legacyModule globalThis moduleName))
      (NativeModulesProxy moduleName) in
  if negb (truthy nativeModule)
  then Throw ("Cannot find native module '" ++ moduleName ++ "'")%string
  else Return nativeModule.

(** The three places a module is looked up in, in order of preference. *)
Definition candidates
    (globalThis : Globals) (NativeModulesProxy : ModuleTable)
    (moduleName : string) : list JsValue :=
  [ expoModule globalThis moduleName;
    legacyModule globalThis moduleName;
    NativeModulesProxy moduleName ].

(** The first value of a list that is not nullish. *)
Definition firstPresent (vs : list JsValue) : option JsValue :=
  find (fun v => negb (isNullish v)) vs.

End NativeModules.

(** ** The Babel preset *)

Module BabelPreset.

Import Js.

(** [String.prototype.includes(searchString)]. *)
Fixpoint includes (s searchString : string) : bool :=
  String.prefix searchString s
  || match s with
     | EmptyString => false
     | String _ rest => includes rest searchString
     end.

(** The caller metadata handed to [api.caller]. *)
Record Caller : Type := mkCaller {
  caller_name : JsValue;
  caller_bundler : JsValue;
  caller_platform : JsValue
}.

Inductive TransformProfile : Type := ProfileDefault | ProfileHermesCanary.

Inductive JsxRuntime : Type := Classic | Automatic.

(** [BabelPresetExpoPlatformOptions].  An optional property read as
    [undefined] is [None]; for [disableImportExportTransform], which the
    preset spreads over a default, the outer [None] is a property that is
    not there and [Some None] one that is there with the value
    [undefined]. *)
Record PlatformOptions : Type := mkPlatformOptions {
  useTransformReactJSXExperimental : option bool;
  disableImportExportTransform : option (option bool);
  withDevTools : option bool;
  disableFlowStripTypesTransform : option bool;
  enableBabelRuntime : option bool;
  unstable_transformProfile : option TransformProfile
}.

(** The empty object [{}]. *)
Definition noPlatformOptions : PlatformOptions :=
  mkPlatformOptions None None None None None None.

(** [BabelPresetExpoOptions].  [lazyImports] is [None] when it is not set
    ([null] or [undefined]). *)
Record Options : Type := mkOptions {
  lazyImports : option bool;
  reanimated : option bool;
  jsxRuntime : option JsxRuntime;
  jsxImportSource : option string;
  web : option PlatformOptions;
  native : option PlatformOptions
}.

Definition noOptions : Options := mkOptions None None None None None None.

(** The plugins the preset can list, with the options it gives them. *)
Inductive PluginItem : Type :=
| ObjectRestSpread (loose : bool)
| TransformReactJsx (runtime : JsxRuntime) (importSource : option string)
| ModuleResolver (aliasFrom aliasTo : string)
| ReactNativeWeb
| Decorators (legacy : bool)
| ExportNamespaceFrom
| Reanimated.

(** The value of [lazyImportExportTransform]: the filter function, or the
    option as it was given. *)
Inductive LazyImportExportTransform : Type :=
| LazyFilter
| LazyOption (value : option bool).

(** The options handed to the Metro preset. *)
Record MetroPresetOptions : Type := mkMetroPresetOptions {
  metro_withDevTools : option bool;
  metro_disableFlowStripTypesTransform : option bool;
  metro_enableBabelRuntime : option bool;
  metro_unstable_transformProfile : option TransformProfile;
  metro_useTransformReactJSXExperimental : bool;
  metro_disableImportExportTransform : option bool;
  metro_lazyImportExportTransform : LazyImportExportTransform
}.

Record TransformOptions : Type := mkTransformOptions {
  presets : list MetroPresetOptions;
  plugins : list PluginItem
}.

(** What [require.resolve] does for a name: it returns a path or throws
    an error with a code and a message. *)
Inductive Resolution : Type :=
| Resolved (path : string)
| ResolveError (code : option string) (message : string).

(** A call returns or rethrows the error of [require.resolve]. *)
Inductive Outcome (A : Type) : Type :=
| Ok (a : A)
| Thrown (code : option string) (message : string).
Arguments Ok {A} a.
Arguments Thrown {A} code message.

Definition hasModule (resolve : string -> Resolution) (name : string)
  : Outcome bool :=
  match resolve name with
  | Resolved path => Ok (negb (negb (JsString.truthy path)))
  | ResolveError code message =>
      if match code with
         | Some c => String.eqb c "MODULE_NOT_FOUND"
         | None => false
         end
         && includes message name
      then Ok false
      else Thrown code message
  end.

Definition getAliasPlugin (resolve : string -> Resolution)
  : Outcome (option PluginItem) :=
  match hasModule resolve "@expo/vector-icons" with
  | Thrown code message => Thrown code message
  | Ok found =>
      if negb found then Ok None
      else Ok (Some (ModuleResolver "react-native-vector-icons"
                                    "@expo/vector-icons"))
  end.

(** Determine which bundler is being used. *)
Definition getBundler (caller : option Caller) : JsValue :=
  match caller with
  | None => JsNull
  | Some caller =>
      if truthy (caller_bundler caller) then caller_bundler caller
      else if isString (caller_name caller) "next-babel-turbo-loader"
              || isString (caller_name caller) "babel-loader"
           then JsStringValue "webpack"
           else JsStringValue "metro"
  end.

(** The [platform] variable after the defaulting step. *)
Definition resolvePlatform (caller : option Caller) : JsValue :=
  let bundler := getBundler caller in
  let isWebpack := isString bundler "webpack" in
  let platform :=
    match caller with
    | Some c => caller_platform c
    | None => JsUndefined
    end in
  if negb (truthy platform) && isWebpack then JsStringValue "web"
  else platform.

(** The filter given as [lazyImportExportTransform] when [lazyImports] is
    [true]; the set of names is imported from another file. *)
Definition lazyImportFilter (lazyImportsSet : string -> bool)
    (importModuleSpecifier : string) : bool :=
  negb (includes importModuleSpecifier "./"
        || lazyImportsSet importModuleSpecifier).

(** [{ disableImportExportTransform: fallback, ...given }] read at
    [disableImportExportTransform]. *)
Definition spreadDisableImportExport (fallback : bool) (given : PlatformOptions)
  : option bool :=
  match disableImportExportTransform given with
  | Some value => value
  | None => Some fallback
  end.

(** The preset.  The packages it depends on (the Metro preset and the
    plugins it always lists) are taken to load; the two probes made through
    [hasModule] are the calls whose failure the source handles.  The caller
    metadata is what [api.caller] hands to its callback, absent when Babel
    was given none. *)
Definition babelPresetExpo (resolve : string -> Resolution)
    (caller : option Caller) (options : option Options)
  : Outcome TransformOptions :=
  let options := match options with Some o => o | None => noOptions end in
  let web := match web options with Some w => w | None => noPlatformOptions end in
  let native :=
    match native options with Some n => n | None => noPlatformOptions end in
  let reanimated := reanimated options in
  let bundler := getBundler caller in
  let isWebpack := isString bundler "webpack" in
  let platform := resolvePlatform caller in
  let given := if isString platform "web" then web else native in
  let platformDisableImportExport :=
    if isString platform "web"
    then spreadDisableImportExport isWebpack web
    else spreadDisableImportExport false native in
  let lazyImportsOption := lazyImports options in
  let extraPlugins := [ObjectRestSpread false] in
  let extraPlugins :=
    if negb (match useTransformReactJSXExperimental given with
             | Some b => b
             | None => false
             end)
    then extraPlugins
         ++ [TransformReactJsx
               (match jsxRuntime options with
                | Some r => r
                | None => Automatic
                end)
               (match jsxRuntime options with
                | Some Classic => None
                | _ =>
                    Some (match jsxImportSource options with
                          | Some src => if JsString.truthy src then src else "react"
                          | None => "react"
                          end)
                end)]
    else extraPlugins in
  match getAliasPlugin resolve with
  | Thrown code message => Thrown code message
  | Ok aliasPlugin =>
      let extraPlugins :=
        match aliasPlugin with
        | Some plugin => extraPlugins ++ [plugin]
        | None => extraPlugins
        end in
      let extraPlugins :=
        if isString platform "web" then extraPlugins ++ [ReactNativeWeb]
        else extraPlugins in
      match hasModule resolve "react-native-reanimated" with
      | Thrown code message => Thrown code message
      | Ok hasReanimated =>
          Ok (mkTransformOptions
                [ mkMetroPresetOptions
                    (withDevTools given)
                    (disableFlowStripTypesTransform given)
                    (enableBabelRuntime given)
                    (unstable_transformProfile given)
                    true
                    platformDisableImportExport
                    (match lazyImportsOption with
                     | Some true => LazyFilter
                     | other => LazyOption other
                     end) ]
                (extraPlugins
                 ++ [Decorators true; ExportNamespaceFrom]
                 ++ (if hasReanimated
                        && negb (match reanimated with
                                 | Some false => true
                                 | _ => false
                                 end)
                     then [Reanimated] else [])))
      end
  end.

(** The options object the preset was given, [{}] when it was given
    none. *)
Definition optionsOf (options : option Options) : Options :=
  match options with Some o => o | None => noOptions end.

(** The platform options the preset reads for a caller: those under [web]
    when the platform is web and those under [native] otherwise, [{}] when
    the property is not there. *)
Definition platformOptionsOf (caller : option Caller) (options : option Options)
  : PlatformOptions :=
  if isString (resolvePlatform caller) "web"
  then match web (optionsOf options) with
       | Some w => w
       | None => noPlatformOptions
       end
  else match native (optionsOf options) with
       | Some n => n
       | None => noPlatformOptions
       end.

End BabelPreset.

(** ** The type mapper: defining equation and classification *)

(** The mapper satisfies the equation its source text states. *)
Lemma mapSwiftTypeToTsType_eq (type : string) :
  mapSwiftTypeToTsType type =
  if negb (JsString.truthy type) then KeywordTypeNode VoidKeyword
  else if isSwiftArray type
       then ArrayTypeNode (mapSwiftTypeToTsType (maybeUnwrapSwiftArray type))
       else switchSwiftType type.
Proof.
  funelim (mapSwiftTypeToTsType type).
  - rewrite Heq. reflexivity.
  - rewrite Heq. cbn. rewrite isArr. reflexivity.
  - rewrite Heq. cbn. rewrite e. reflexivity.
Qed.

(** *** Bare names *)

(** A name that is neither empty nor in array syntax goes through the
    [switch]. *)
Lemma mapSwiftTypeToTsType_bare (type : string) :
  type <> "" ->
  isSwiftArray type = false ->
  mapSwiftTypeToTsType type = switchSwiftType type.
Proof.
  intros Hne Harr. rewrite mapSwiftTypeToTsType_eq, Harr.
  unfold JsString.truthy.
  destruct (String.eqb_spec type "") as [->|_]; [contradiction|reflexivity].
Qed.

(** C1: the empty string maps to void, the six recognised names map to
    their keywords, and every other non-empty name that is not in array
    syntax maps to a type reference carrying the name unchanged. *)
Theorem mapSwiftTypeToTsType_classification :
  mapSwiftTypeToTsType "" = KeywordTypeNode VoidKeyword
  /\ mapSwiftTypeToTsType "unknown" = KeywordTypeNode AnyKeyword
  /\ mapSwiftTypeToTsType "String" = KeywordTypeNode StringKeyword
  /\ mapSwiftTypeToTsType "Bool" = KeywordTypeNode BooleanKeyword
  /\ mapSwiftTypeToTsType "Int" = KeywordTypeNode NumberKeyword
  /\ mapSwiftTypeToTsType "Float" = KeywordTypeNode NumberKeyword
  /\ mapSwiftTypeToTsType "Double" = KeywordTypeNode NumberKeyword
  /\ (forall type : string,
        type <> "" ->
        isSwiftArray type = false ->
        ~ In type ["unknown"; "String"; "Bool"; "Int"; "Float"; "Double"] ->
        mapSwiftTypeToTsType type = TypeReferenceNode type None).
Proof.
  do 7 (split; [rewrite mapSwiftTypeToTsType_eq; reflexivity|]).
  intros type Hne Harr Hnot.
  rewrite (mapSwiftTypeToTsType_bare type Hne Harr).
  unfold switchSwiftType.
  repeat match goal with
         | |- context [String.eqb type ?k] =>
             destruct (String.eqb_spec type k) as [Heq|_];
             [exfalso; apply Hnot; rewrite Heq; simpl; tauto|]
         end.
  reflexivity.
Qed.

Lemma mapSwiftTypeToTsType_classification_witness :
  mapSwiftTypeToTsType "CustomRecord" = TypeReferenceNode "CustomRecord" None.
Proof.
  apply (proj2 (proj2 (proj2 (proj2 (proj2 (proj2 (proj2
           mapSwiftTypeToTsType_classification)))))) "CustomRecord").
  - discriminate.
  - reflexivity.
  - simpl. intros H.
    repeat (destruct H as [H|H]; [discriminate H|]). exact H.
Defined.

(** *** Array syntax *)

Lemma substring_append_skip (s t : string) (m : nat) :
  String.substring (String.length s) m (s ++ t)%string = String.substring 0 m t.
Proof. induction s as [|c s IH]; simpl; [reflexivity|exact IH]. Qed.

Lemma substring_append_take (s t : string) :
  String.substring 0 (String.length s) (s ++ t)%string = s.
Proof. induction s as [|c s IH]; simpl; [destruct t; reflexivity|now rewrite IH]. Qed.

Lemma length_append (s t : string) :
  String.length (s ++ t)%string = String.length s + String.length t.
Proof. induction s as [|c s IH]; simpl; [reflexivity|now rewrite IH]. Qed.

Lemma isSwiftArray_swiftArrayOf (T : string) :
  isSwiftArray (swiftArrayOf T) = true.
Proof.
  unfold isSwiftArray, swiftArrayOf, JsString.startsWith, JsString.endsWith.
  cbn [String.append String.prefix String.length].
  destruct (Ascii.ascii_dec "[" "[") as [_|n]; [|now elim n].
  replace (String.prefix "" (T ++ "]")%string) with true
    by (destruct (T ++ "]")%string; reflexivity).
  rewrite length_append. cbn [String.length Nat.leb andb Nat.sub].
  replace (String.length T + 1 - 0) with (S (String.length T)) by lia.
  cbn [String.substring]. rewrite substring_append_skip. reflexivity.
Qed.

(** Stripping removes exactly the outer bracket pair. *)
Lemma maybeUnwrapSwiftArray_swiftArrayOf (T : string) :
  maybeUnwrapSwiftArray (swiftArrayOf T) = T.
Proof.
  pose proof (isSwiftArray_swiftArrayOf T) as H.
  unfold maybeUnwrapSwiftArray. unfold isSwiftArray in H. rewrite H.
  cbn [negb]. unfold JsString.substring, swiftArrayOf.
  cbn [String.append String.length]. rewrite length_append.
  cbn [String.length].
  replace (Nat.min 1 (S (String.length T + 1))) with 1 by lia.
  replace (Nat.min (S (String.length T + 1) - 1) (S (String.length T + 1)))
    with (S (String.length T)) by lia.
  replace (Nat.min 1 (S (String.length T))) with 1 by lia.
  replace (Nat.max 1 (S (String.length T)) - 1) with (String.length T) by lia.
  cbn [String.substring]. apply substring_append_take.
Qed.

Lemma mapSwiftTypeToTsType_swiftArrayOf (T : string) :
  mapSwiftTypeToTsType (swiftArrayOf T) = ArrayTypeNode (mapSwiftTypeToTsType T).
Proof.
  rewrite mapSwiftTypeToTsType_eq.
  rewrite isSwiftArray_swiftArrayOf, maybeUnwrapSwiftArray_swiftArrayOf.
  reflexivity.
Qed.

(** C2: for every type name [T], [[T]] maps to array-of the mapping of
    [T], [[[T]]] maps to array-of-array-of it, each step strips one bracket
    pair, and the same holds at every nesting depth. *)
Theorem mapSwiftTypeToTsType_array_nesting (T : string) :
  mapSwiftTypeToTsType ("[" ++ T ++ "]")%string
    = ArrayTypeNode (mapSwiftTypeToTsType T)
  /\ mapSwiftTypeToTsType ("[[" ++ T ++ "]]")%string
    = ArrayTypeNode (ArrayTypeNode (mapSwiftTypeToTsType T))
  /\ maybeUnwrapSwiftArray ("[" ++ T ++ "]")%string = T
  /\ (forall n : nat,
        mapSwiftTypeToTsType (Nat.iter n swiftArrayOf T)
        = Nat.iter n ArrayTypeNode (mapSwiftTypeToTsType T)).
Proof.
  assert (Hnest : ("[[" ++ T ++ "]]")%string = swiftArrayOf (swiftArrayOf T)).
  { unfold swiftArrayOf. cbn [String.append]. do 2 f_equal.
    induction T as [|c T IH]; [reflexivity|].
    cbn [String.append]. now rewrite IH. }
  repeat split.
  - apply mapSwiftTypeToTsType_swiftArrayOf.
  - rewrite Hnest. now rewrite !mapSwiftTypeToTsType_swiftArrayOf.
  - apply maybeUnwrapSwiftArray_swiftArrayOf.
  - induction n as [|n IH]; [reflexivity|].
    rewrite !Nat.iter_succ, mapSwiftTypeToTsType_swiftArrayOf.
    now rewrite IH.
Qed.

(** C9: the empty bracket pair is array syntax around the empty name, so
    it maps to array-of-void. *)
Theorem mapSwiftTypeToTsType_empty_brackets :
  isSwiftArray "[]" = true
  /\ maybeUnwrapSwiftArray "[]" = ""
  /\ mapSwiftTypeToTsType "[]" = ArrayTypeNode (KeywordTypeNode VoidKeyword).
Proof.
  split; [reflexivity|split; [reflexivity|]].
  rewrite mapSwiftTypeToTsType_eq. cbn.
  rewrite mapSwiftTypeToTsType_eq. reflexivity.
Qed.

(** ** Termination of the type mapper *)

(** C8: the mapper returns a type node for every string, the empty one
    included: each recursive call is on a strictly shorter string, and a
    call stack of depth one more than half the length of the input is
    enough for the run to complete with the mapper's result. *)
Theorem mapSwiftTypeToTsType_terminates (type : string) :
  (isSwiftArray type = true ->
   String.length (maybeUnwrapSwiftArray type) < String.length type)
  /\ (forall fuel : nat,
        String.length type / 2 < fuel ->
        mapSwiftTypeToTsType_fuel fuel type = Some (mapSwiftTypeToTsType type)).
Proof.
  split; [apply maybeUnwrapSwiftArray_shrinks|].
  intros fuel. revert type.
  induction fuel as [|fuel IH]; intros type Hfuel; [lia|].
  cbn [mapSwiftTypeToTsType_fuel]. rewrite (mapSwiftTypeToTsType_eq type).
  destruct (negb (JsString.truthy type)); [reflexivity|].
  destruct (isSwiftArray type) eqn:Harr; [|reflexivity].
  rewrite IH; [reflexivity|].
  rewrite (maybeUnwrapSwiftArray_length type Harr).
  pose proof (isSwiftArray_length type Harr) as Hlen.
  replace (String.length type) with (String.length type - 2 + 1 * 2) in Hfuel
    by lia.
  rewrite Nat.div_add in Hfuel by discriminate. lia.
Qed.

Lemma mapSwiftTypeToTsType_terminates_witness :
  String.length (maybeUnwrapSwiftArray "[[]]") < String.length "[[]]"
  /\ mapSwiftTypeToTsType_fuel 3 "[[]]" = Some (mapSwiftTypeToTsType "[[]]").
Proof.
  split.
  - apply (proj1 (mapSwiftTypeToTsType_terminates "[[]]")). reflexivity.
  - apply (proj2 (mapSwiftTypeToTsType_terminates "[[]]") 3).
    vm_compute. lia.
Defined.

(** The empty string needs a single call. *)
Example mapSwiftTypeToTsType_fuel_empty :
  mapSwiftTypeToTsType_fuel 1 "" = Some (KeywordTypeNode VoidKeyword).
Proof. reflexivity. Qed.

(** With one unit less the run on the same input does not complete. *)
Example mapSwiftTypeToTsType_fuel_short :
  mapSwiftTypeToTsType_fuel 2 "[[]]" = None.
Proof. reflexivity. Qed.

(** ** Default values *)

(** The statements depend on the kind of the node only. *)
Lemma getMockReturnStatements_kind (a b : TypeNode) :
  kind a = kind b -> getMockReturnStatements a = getMockReturnStatements b.
Proof. unfold getMockReturnStatements. now intros ->. Qed.

(** The kinds the mapper can produce. *)
Lemma mapSwiftTypeToTsType_kind (type : string) :
  In (kind (mapSwiftTypeToTsType type))
     [AnyKeyword; StringKeyword; BooleanKeyword; NumberKeyword; VoidKeyword;
      ArrayType; TypeReference].
Proof.
  rewrite mapSwiftTypeToTsType_eq.
  destruct (negb (JsString.truthy type)); [simpl; tauto|].
  destruct (isSwiftArray type); [simpl; tauto|].
  unfold switchSwiftType.
  repeat match goal with
         | |- context [String.eqb type ?k] =>
             destruct (String.eqb type k); [simpl; tauto|]
         end.
  simpl; tauto.
Qed.

(** C3: the synthesizer returns null for any, the empty string for string,
    false for boolean, 0 for number, nothing for void, an empty array
    literal for every array type whatever its element type, and nothing for
    a type reference, as for void; on the mapping of a type name the result
    is always one of these. *)
Theorem getMockReturnStatements_cases :
  getMockReturnStatements (KeywordTypeNode AnyKeyword)
    = [ReturnStatement NullLiteral]
  /\ getMockReturnStatements (KeywordTypeNode StringKeyword)
    = [ReturnStatement (StringLiteral "")]
  /\ getMockReturnStatements (KeywordTypeNode BooleanKeyword)
    = [ReturnStatement FalseLiteral]
  /\ getMockReturnStatements (KeywordTypeNode NumberKeyword)
    = [ReturnStatement (NumericLiteral "0")]
  /\ getMockReturnStatements (KeywordTypeNode VoidKeyword) = []
  /\ (forall elementType : TypeNode,
        getMockReturnStatements (ArrayTypeNode elementType)
        = [ReturnStatement (ArrayLiteralExpression [])])
  /\ (forall (typeName : string) (typeArguments : option (list TypeNode)),
        getMockReturnStatements (TypeReferenceNode typeName typeArguments) = []
        /\ getMockReturnStatements (TypeReferenceNode typeName typeArguments)
           = getMockReturnStatements (KeywordTypeNode VoidKeyword))
  /\ (forall type : string,
        getMockReturnStatements (mapSwiftTypeToTsType type)
        = match kind (mapSwiftTypeToTsType type) with
          | AnyKeyword => [ReturnStatement NullLiteral]
          | StringKeyword => [ReturnStatement (StringLiteral "")]
          | BooleanKeyword => [ReturnStatement FalseLiteral]
          | NumberKeyword => [ReturnStatement (NumericLiteral "0")]
          | ArrayType => [ReturnStatement (ArrayLiteralExpression [])]
          | _ => []
          end)
  /\ getMockReturnStatements (mapSwiftTypeToTsType "Bool")
     = [ReturnStatement FalseLiteral]
  /\ getMockReturnStatements (mapSwiftTypeToTsType "Int")
     = [ReturnStatement (NumericLiteral "0")]
  /\ getMockReturnStatements (mapSwiftTypeToTsType "String")
     = [ReturnStatement (StringLiteral "")]
  /\ getMockReturnStatements (mapSwiftTypeToTsType "[Int]")
     = [ReturnStatement (ArrayLiteralExpression [])]
  /\ getMockReturnStatements (mapSwiftTypeToTsType_opt None) = [].
Proof.
  do 5 (split; [reflexivity|]).
  split; [intros; reflexivity|].
  split; [intros; split; reflexivity|].
  split.
  - intros type. unfold getMockReturnStatements.
    destruct (kind (mapSwiftTypeToTsType type)); reflexivity.
  - repeat split; vm_compute; reflexivity.
Qed.

(** ** Function declarations *)

Lemma getMockedFunctions_length (fs : list Closure) (async : bool) :
  length (getMockedFunctions fs async) = length fs.
Proof. apply length_map. Qed.

Lemma getMockedFunctions_names (fs : list Closure) (async : bool) :
  map fd_name (getMockedFunctions fs async) = map closure_name fs.
Proof.
  unfold getMockedFunctions. rewrite map_map. apply map_ext. reflexivity.
Qed.

(** C4: every declaration built with the async flag carries the async
    modifier, declares the return type Promise-of the mapped return type,
    and has as body the default-value statements of the mapped return type
    itself, the same body as the declaration built without the flag. *)
Theorem getMockedFunctions_async (fs : list Closure) :
  Forall2
    (fun (c : Closure) (d : FunctionDeclaration) =>
       fd_modifiers d = [ExportKeyword; AsyncKeyword]
       /\ fd_type d
          = TypeReferenceNode "Promise" (Some [mappedReturnType c])
       /\ fd_body d
          = createBlock (getMockReturnStatements (mappedReturnType c)) true)
    fs (getMockedFunctions fs true)
  /\ map fd_body (getMockedFunctions fs true)
     = map fd_body (getMockedFunctions fs false).
Proof.
  split.
  - induction fs as [|c fs IH]; constructor; [|exact IH].
    cbn. repeat split.
  - unfold getMockedFunctions. rewrite !map_map. apply map_ext.
    intros c. reflexivity.
Qed.

(** C10: a closure without a types record yields a declaration with no
    parameters, return type void (Promise-of-void when async) and an empty
    body. *)
Theorem getMockedFunctions_absent_types (c : Closure) (async : bool) :
  types c = None ->
  getMockedFunctions [c] async
  = [ createFunctionDeclaration
        (if async then [ExportKeyword; AsyncKeyword] else [ExportKeyword])
        None
        (closure_name c)
        None
        []
        (if async
         then TypeReferenceNode "Promise" (Some [KeywordTypeNode VoidKeyword])
         else KeywordTypeNode VoidKeyword)
        (createBlock [] true) ].
Proof.
  intros H. unfold getMockedFunctions, mockedFunction. cbn [map].
  rewrite H. destruct async; reflexivity.
Qed.

Lemma getMockedFunctions_absent_types_witness :
  getMockedFunctions [mkClosure "ping" None] true
  = [ createFunctionDeclaration
        [ExportKeyword; AsyncKeyword] None "ping" None []
        (TypeReferenceNode "Promise" (Some [KeywordTypeNode VoidKeyword]))
        (createBlock [] true) ].
Proof.
  apply (getMockedFunctions_absent_types (mkClosure "ping" None) true).
  reflexivity.
Defined.

(** ** The module scanner *)

Module JsSetFacts.

Lemma has_In (s : list string) (x : string) :
  JsSet.has s x = true <-> In x s.
Proof.
  unfold JsSet.has. rewrite existsb_exists. split.
  - intros [y [Hy Heq]]. apply String.eqb_eq in Heq. now subst.
  - intros H. exists x. split; [exact H|apply String.eqb_refl].
Qed.

Lemma add_In (s : list string) (x y : string) :
  In y (JsSet.add s x) <-> In y s \/ y = x.
Proof.
  unfold JsSet.add. destruct (JsSet.has s x) eqn:Hhas.
  - apply has_In in Hhas. split; [tauto|]. intros [H| ->]; assumption.
  - rewrite in_app_iff. simpl. split; intros [H|H]; auto.
    + destruct H as [H|[]]; auto.
Qed.

Lemma add_NoDup (s : list string) (x : string) :
  NoDup s -> NoDup (JsSet.add s x).
Proof.
  intros Hs. unfold JsSet.add. destruct (JsSet.has s x) eqn:Hhas; [exact Hs|].
  assert (Hnotin : ~ In x s).
  { intros Hin. apply has_In in Hin. congruence. }
  clear Hhas. induction s as [|a s IH]; simpl.
  - constructor; [intros []|constructor].
  - inversion Hs as [|? ? Ha Hs']; subst. constructor.
    + rewrite in_app_iff. simpl. intros [H|[H|[]]]; [contradiction|].
      subst. apply Hnotin. now left.
    + apply IH; [exact Hs'|]. intros H. apply Hnotin. now right.
Qed.

Lemma fold_add_In (xs s : list string) (y : string) :
  In y (fold_left JsSet.add xs s) <-> In y s \/ In y xs.
Proof.
  revert s. induction xs as [|x xs IH]; intros s; simpl; [tauto|].
  rewrite IH, add_In. intuition congruence.
Qed.

Lemma fold_add_NoDup (xs s : list string) :
  NoDup s -> NoDup (fold_left JsSet.add xs s).
Proof.
  revert s. induction xs as [|x xs IH]; intros s Hs; simpl; [exact Hs|].
  apply IH, add_NoDup, Hs.
Qed.

(** A set built from a list has the members of the list, once each. *)
Lemma from_In (xs : list string) (y : string) :
  In y (JsSet.from xs) <-> In y xs.
Proof. unfold JsSet.from. rewrite fold_add_In. simpl. tauto. Qed.

Lemma from_NoDup (xs : list string) : NoDup (JsSet.from xs).
Proof. apply fold_add_NoDup. constructor. Qed.

End JsSetFacts.

Lemma fold_left_push {A B : Type} (f : A -> B) (l : list A) (acc : list B) :
  fold_left (fun acc p => acc ++ [f p]) l acc = acc ++ map f l.
Proof.
  revert acc. induction l as [|a l IH]; intros acc; simpl.
  - now rewrite app_nil_r.
  - rewrite IH, <- app_assoc. reflexivity.
Qed.

(** One step of the scan appends the stripped type names of the closure. *)
Lemma scanTypes_closure (foundTypes : list string) (c : Closure) :
  scanTypes foundTypes (types c)
  = foundTypes ++ map maybeUnwrapSwiftArray (closureTypeNames c).
Proof.
  unfold scanTypes, closureTypeNames. destruct (types c) as [t|].
  - rewrite fold_left_push, map_app, map_map.
    destruct (returnType t) as [r|]; [destruct (JsString.truthy r)|];
      simpl; rewrite <- ?app_assoc, ?app_nil_r; reflexivity.
  - now rewrite app_nil_r.
Qed.

Lemma fold_scanTypes (cs : list Closure) (foundTypes : list string) :
  fold_left scanTypes (map (fun t2 => types t2) cs) foundTypes
  = foundTypes
    ++ flat_map (fun c => map maybeUnwrapSwiftArray (closureTypeNames c)) cs.
Proof.
  revert foundTypes. induction cs as [|c cs IH]; intros foundTypes; simpl.
  - now rewrite app_nil_r.
  - rewrite scanTypes_closure, IH, <- app_assoc. reflexivity.
Qed.

(** What the scanner returns: a duplicate-free collection holding exactly
    the type names of the module's closures, each stripped of one bracket
    pair, that the mapper classifies as type references. *)
Lemma getTypesToMock_members (module : OutputModuleDefinition) :
  NoDup (getTypesToMock module)
  /\ forall n : string,
       In n (getTypesToMock module)
       <-> (exists c t,
              In c (moduleClosures module)
              /\ In t (closureTypeNames c)
              /\ n = maybeUnwrapSwiftArray t)
           /\ kind (mapSwiftTypeToTsType n) = TypeReference.
Proof.
  split; [apply JsSetFacts.from_NoDup|].
  intros n. unfold getTypesToMock. rewrite JsSetFacts.from_In, filter_In.
  assert (Hvalues :
            flat_map
              (fun t => match t with
                        | ArrayValue t => map (fun t2 => types t2) t
                        | StringValue _ => []
                        end)
              (Object_values module)
            = map (fun t2 => types t2) (moduleClosures module)).
  { unfold Object_values, moduleClosures. cbn [flat_map].
    rewrite app_nil_r, !map_app. reflexivity. }
  rewrite Hvalues, fold_scanTypes. cbn [app].
  rewrite in_flat_map.
  assert (Hkind : SyntaxKind_eqb (kind (mapSwiftTypeToTsType n)) TypeReference = true
                  <-> kind (mapSwiftTypeToTsType n) = TypeReference).
  { destruct (kind (mapSwiftTypeToTsType n)); simpl; split;
      try reflexivity; discriminate. }
  rewrite Hkind. split.
  - intros [[c [Hc Hn]] Hk]. split; [|exact Hk].
    apply in_map_iff in Hn. destruct Hn as [t [Ht Hin]].
    exists c, t. auto.
  - intros [[c [t [Hc [Ht Hn]]]] Hk]. split; [|exact Hk].
    exists c. split; [exact Hc|]. apply in_map_iff. exists t. auto.
Qed.

(** C5: on a function returning [[[Foo]]] the scanner strips a single
    bracket pair, leaving [[Foo]], which the mapper classifies as an array;
    the result is empty although the innermost name [Foo] is classified as
    a type reference and the built declaration refers to it. *)
Theorem getTypesToMock_nested_array :
  let module :=
    mkModule "M"
      [mkClosure "f" (Some (mkClosureTypes [] (Some "[[Foo]]")))] [] [] in
  getTypesToMock module = []
  /\ maybeUnwrapSwiftArray "[[Foo]]" = "[Foo]"
  /\ unwrapSwiftArrayFully 2 "[[Foo]]" = "Foo"
  /\ kind (mapSwiftTypeToTsType "Foo") = TypeReference
  /\ map fd_type (getMockedFunctions (functions module) false)
     = [ArrayTypeNode (ArrayTypeNode (TypeReferenceNode "Foo" None))].
Proof. vm_compute. repeat split. Qed.

(** A single level of array syntax is unwrapped, and repeated names are
    kept once, in first-seen order. *)
Example getTypesToMock_discovery :
  getTypesToMock
    (mkModule "M"
       [mkClosure "f" (Some (mkClosureTypes [mkParameter "x" "Foo"] (Some "[Bar]")))]
       [mkClosure "g" (Some (mkClosureTypes [mkParameter "y" "Foo";
                                            mkParameter "z" "Int"] None))]
       [])
  = ["Foo"; "Bar"].
Proof. vm_compute. reflexivity. Qed.

(** ** The generated declaration list *)

Lemma getMockedTypes_names (names : list string) :
  map ta_name (getMockedTypes names) = names.
Proof.
  unfold getMockedTypes. rewrite map_map. cbn. apply map_id.
Qed.

Lemma getMockedTypes_exported (names : list string) :
  Forall (fun d => In ExportKeyword (modifiersOf d))
         (map TypeAliasDecl (getMockedTypes names)).
Proof.
  apply Forall_forall. intros d Hd.
  apply in_map_iff in Hd. destruct Hd as [a [<- Ha]].
  apply in_map_iff in Ha. destruct Ha as [n [<- _]].
  left. reflexivity.
Qed.

Lemma getMockedFunctions_exported (fs : list Closure) (async : bool) :
  Forall (fun d => In ExportKeyword (modifiersOf d))
         (map FunctionDecl (getMockedFunctions fs async)).
Proof.
  apply Forall_forall. intros d Hd.
  apply in_map_iff in Hd. destruct Hd as [f [<- Hf]].
  apply in_map_iff in Hf. destruct Hf as [c [<- _]].
  left. reflexivity.
Qed.

(** C6: the declaration list of a module is the type aliases, then the
    declarations of the plain functions, then those of the async functions;
    functions keep their input order, only the async ones carry the async
    modifier, and every declaration carries the export modifier. *)
Theorem getMockForModule_layout (module : OutputModuleDefinition) :
  getMockForModule module
  = map TypeAliasDecl (getMockedTypes (getTypesToMock module))
    ++ map FunctionDecl (getMockedFunctions (functions module) false)
    ++ map FunctionDecl (getMockedFunctions (asyncFunctions module) true)
  /\ map ta_name (getMockedTypes (getTypesToMock module))
     = getTypesToMock module
  /\ map fd_name (getMockedFunctions (functions module) false)
     = map closure_name (functions module)
  /\ map fd_name (getMockedFunctions (asyncFunctions module) true)
     = map closure_name (asyncFunctions module)
  /\ Forall (fun d => fd_modifiers d = [ExportKeyword])
            (getMockedFunctions (functions module) false)
  /\ Forall (fun d => fd_modifiers d = [ExportKeyword; AsyncKeyword])
            (getMockedFunctions (asyncFunctions module) true)
  /\ Forall (fun d => In ExportKeyword (modifiersOf d))
            (getMockForModule module).
Proof.
  split; [reflexivity|].
  split; [apply getMockedTypes_names|].
  split; [apply getMockedFunctions_names|].
  split; [apply getMockedFunctions_names|].
  split; [|split].
  - apply Forall_forall. intros d Hd.
    apply in_map_iff in Hd. destruct Hd as [c [<- _]]. reflexivity.
  - apply Forall_forall. intros d Hd.
    apply in_map_iff in Hd. destruct Hd as [c [<- _]]. reflexivity.
  - unfold getMockForModule. cbn [app].
    repeat (apply Forall_app; split).
    + apply getMockedTypes_exported.
    + apply getMockedFunctions_exported.
    + apply getMockedFunctions_exported.
Qed.

(** The end-to-end scenario: one plain and one async function, no opaque
    type. *)
Example getMockForModule_example :
  getMockForModule
    (mkModule "ExampleModule"
       [mkClosure "getValue" (Some (mkClosureTypes [] (Some "Int")))]
       [mkClosure "getValueAsync"
          (Some (mkClosureTypes [mkParameter "id" "String"] (Some "Bool")))]
       [])
  = [ FunctionDecl
        (createFunctionDeclaration
           [ExportKeyword] None "getValue" None []
           (KeywordTypeNode NumberKeyword)
           (createBlock [ReturnStatement (NumericLiteral "0")] true));
      FunctionDecl
        (createFunctionDeclaration
           [ExportKeyword; AsyncKeyword] None "getValueAsync" None
           [createParameterDeclaration None None "id" None
              (KeywordTypeNode StringKeyword) None]
           (TypeReferenceNode "Promise" (Some [KeywordTypeNode BooleanKeyword]))
           (createBlock [ReturnStatement FalseLiteral] true)) ].
Proof. vm_compute. reflexivity. Qed.

(** ** Mapping the textual form of a mapped type *)

(** A mapped type of kind type reference is the reference to the input
    name itself. *)
Lemma mapSwiftTypeToTsType_reference (type : string) :
  kind (mapSwiftTypeToTsType type) = TypeReference ->
  mapSwiftTypeToTsType type = TypeReferenceNode type None.
Proof.
  rewrite mapSwiftTypeToTsType_eq.
  destruct (negb (JsString.truthy type)); [discriminate|].
  destruct (isSwiftArray type); [discriminate|].
  unfold switchSwiftType.
  repeat match goal with
         | |- context [String.eqb type ?k] =>
             destruct (String.eqb type k); [discriminate|]
         end.
  reflexivity.
Qed.

(** The keyword nodes the mapper can return. *)
Lemma mapSwiftTypeToTsType_keyword (type : string) (k : SyntaxKind) :
  mapSwiftTypeToTsType type = KeywordTypeNode k ->
  In k [VoidKeyword; AnyKeyword; StringKeyword; BooleanKeyword; NumberKeyword].
Proof.
  rewrite mapSwiftTypeToTsType_eq.
  destruct (negb (JsString.truthy type)).
  { intros H; injection H as <-. simpl; tauto. }
  destruct (isSwiftArray type); [discriminate|].
  unfold switchSwiftType.
  repeat match goal with
         | |- context [String.eqb type ?s] =>
             destruct (String.eqb type s);
             [intros H; injection H as <-; simpl; tauto|]
         end.
  discriminate.
Qed.

(** The claim of C7 as stated fails: [String] maps to the string keyword,
    whose text [string] maps to a type reference. *)
Lemma remap_kind_differs :
  ~ (forall type : string,
       kind (mapSwiftTypeToTsType (printTypeNode (mapSwiftTypeToTsType type)))
       = kind (mapSwiftTypeToTsType type)).
Proof.
  intros H. specialize (H "String"). vm_compute in H. discriminate H.
Qed.

(** C7 (amended): mapping the textual form of a mapped type again gives
    the same mapped type when the first mapping is a type reference, and
    gives a type reference rather than the keyword when the first mapping
    is a keyword. *)
Theorem remap_printed_type (type : string) :
  (kind (mapSwiftTypeToTsType type) = TypeReference ->
   mapSwiftTypeToTsType (printTypeNode (mapSwiftTypeToTsType type))
   = mapSwiftTypeToTsType type)
  /\ (forall k : SyntaxKind,
        mapSwiftTypeToTsType type = KeywordTypeNode k ->
        mapSwiftTypeToTsType (printTypeNode (mapSwiftTypeToTsType type))
        = TypeReferenceNode (tokenToString k) None).
Proof.
  split.
  - intros Hk. rewrite (mapSwiftTypeToTsType_reference type Hk) at 1.
    reflexivity.
  - intros k Hk. rewrite Hk. cbn [printTypeNode].
    apply mapSwiftTypeToTsType_keyword in Hk. simpl in Hk.
    repeat (destruct Hk as [<-|Hk]; [vm_compute; reflexivity|]).
    destruct Hk.
Qed.

Lemma remap_printed_type_witness :
  mapSwiftTypeToTsType (printTypeNode (mapSwiftTypeToTsType "CustomRecord"))
  = mapSwiftTypeToTsType "CustomRecord"
  /\ mapSwiftTypeToTsType (printTypeNode (mapSwiftTypeToTsType "Int"))
     = TypeReferenceNode "number" None.
Proof.
  split.
  - apply (proj1 (remap_printed_type "CustomRecord")). reflexivity.
  - apply (proj2 (remap_printed_type "Int") NumberKeyword). reflexivity.
Defined.

(** ** Further properties of the type mapper *)

(** Induction along the recursion of the mapper: a property of every
    string follows once it passes from the stripped name to the name in
    array syntax. *)
Lemma swiftArray_induction (P : string -> Prop) :
  (forall type : string,
      (isSwiftArray type = true -> P (maybeUnwrapSwiftArray type)) -> P type) ->
  forall type : string, P type.
Proof.
  intros step type.
  remember (String.length type) as n eqn:Hn. revert type Hn.
  induction n as [n IH] using lt_wf_ind. intros type ->.
  apply step. intros Harr.
  apply (IH (String.length (maybeUnwrapSwiftArray type))); [|reflexivity].
  apply maybeUnwrapSwiftArray_shrinks, Harr.
Qed.

Lemma substring_split (s : string) (n : nat) :
  n <= String.length s ->
  s = (String.substring 0 n s
       ++ String.substring n (String.length s - n) s)%string.
Proof.
  revert n. induction s as [|c s IH]; intros n Hn; simpl in *.
  - assert (n = 0) by lia. subst. reflexivity.
  - destruct n as [|n]; simpl.
    + f_equal. clear IH Hn. induction s as [|d s IHs]; simpl; [reflexivity|].
      f_equal. exact IHs.
    + f_equal. apply IH. lia.
Qed.

(** A string in array syntax is a name between one bracket pair. *)
Lemma isSwiftArray_inv (type : string) :
  isSwiftArray type = true -> exists T : string, type = swiftArrayOf T.
Proof.
  intros H. pose proof (isSwiftArray_length type H) as Hlen.
  unfold isSwiftArray, JsString.startsWith, JsString.endsWith in H.
  apply andb_true_iff in H. destruct H as [Hpre Hsuf].
  destruct type as [|a r]; [discriminate|].
  cbn [String.prefix] in Hpre.
  destruct (Ascii.ascii_dec "[" a) as [<-|]; [|discriminate].
  apply andb_true_iff in Hsuf. destruct Hsuf as [_ Hsuf].
  apply String.eqb_eq in Hsuf. cbn [String.length] in *.
  replace (S (String.length r) - 1) with (S (String.length r - 1)) in Hsuf
    by lia.
  cbn [String.substring] in Hsuf.
  exists (String.substring 0 (String.length r - 1) r).
  unfold swiftArrayOf. cbn [String.append]. f_equal.
  pose proof (substring_split r (String.length r - 1)) as Hsplit.
  replace (String.length r - (String.length r - 1)) with 1 in Hsplit by lia.
  rewrite Hsuf in Hsplit. apply Hsplit. lia.
Qed.

(** X1: unwrapping leaves a string outside array syntax unchanged; on a
    string in array syntax it removes two characters and putting the
    bracket pair back restores the string. *)
Theorem maybeUnwrapSwiftArray_inverse (type : string) :
  (isSwiftArray type = false -> maybeUnwrapSwiftArray type = type)
  /\ (isSwiftArray type = true ->
      swiftArrayOf (maybeUnwrapSwiftArray type) = type
      /\ String.length type = String.length (maybeUnwrapSwiftArray type) + 2).
Proof.
  split.
  - intros H. unfold maybeUnwrapSwiftArray. unfold isSwiftArray in H.
    now rewrite H.
  - intros H. split.
    + destruct (isSwiftArray_inv type H) as [T ->].
      now rewrite maybeUnwrapSwiftArray_swiftArrayOf.
    + rewrite (maybeUnwrapSwiftArray_length type H).
      pose proof (isSwiftArray_length type H). lia.
Qed.

Lemma maybeUnwrapSwiftArray_inverse_witness :
  maybeUnwrapSwiftArray "Foo]" = "Foo]"
  /\ swiftArrayOf (maybeUnwrapSwiftArray "[Foo]") = "[Foo]"
  /\ String.length "[Foo]" = String.length (maybeUnwrapSwiftArray "[Foo]") + 2.
Proof.
  split.
  - apply (proj1 (maybeUnwrapSwiftArray_inverse "Foo]")). reflexivity.
  - apply (proj2 (maybeUnwrapSwiftArray_inverse "[Foo]")). reflexivity.
Defined.

(** Case analysis on the comparisons of the [switch]. *)
Ltac switch_cases type :=
  unfold switchSwiftType;
  repeat match goal with
         | |- context [String.eqb type ?k] =>
             destruct (String.eqb_spec type k)
         end.

Ltac split_iffs :=
  repeat match goal with
         | |- _ /\ _ => split
         | |- _ <-> _ => split
         end.

Lemma truthy_false_iff (s : string) :
  negb (JsString.truthy s) = true <-> s = "".
Proof.
  unfold JsString.truthy. destruct (String.eqb_spec s ""); simpl; split;
    intros; congruence.
Qed.

(** X2: the mapper returns each result only for the inputs the source
    lists: void exactly for the empty string, each keyword exactly for its
    Swift names, an array exactly for array syntax, and a type reference
    exactly for the remaining strings. *)
Theorem mapSwiftTypeToTsType_exact (type : string) :
  (mapSwiftTypeToTsType type = KeywordTypeNode VoidKeyword <-> type = "")
  /\ (mapSwiftTypeToTsType type = KeywordTypeNode AnyKeyword
      <-> type = "unknown")
  /\ (mapSwiftTypeToTsType type = KeywordTypeNode StringKeyword
      <-> type = "String")
  /\ (mapSwiftTypeToTsType type = KeywordTypeNode BooleanKeyword
      <-> type = "Bool")
  /\ (mapSwiftTypeToTsType type = KeywordTypeNode NumberKeyword
      <-> type = "Int" \/ type = "Float" \/ type = "Double")
  /\ (kind (mapSwiftTypeToTsType type) = ArrayType
      <-> isSwiftArray type = true)
  /\ (kind (mapSwiftTypeToTsType type) = TypeReference
      <-> type <> "" /\ isSwiftArray type = false
          /\ ~ In type recognisedNames).
Proof.
  rewrite mapSwiftTypeToTsType_eq.
  destruct (negb (JsString.truthy type)) eqn:Hempty.
  - apply truthy_false_iff in Hempty. subst type.
    split_iffs; intros H; try discriminate H; try reflexivity;
      try (destruct H as [H|[H|H]]; discriminate H).
    destruct H as [H _]. now elim H.
  - assert (Hne : type <> "").
    { intros ->. discriminate Hempty. }
    destruct (isSwiftArray type) eqn:Harr.
    + split_iffs; intros H; try discriminate H; try reflexivity;
        try (subst type; discriminate Harr);
        try (destruct H as [H|[H|H]]; subst type; discriminate Harr).
      destruct H as [_ [H _]]. discriminate H.
    + switch_cases type; subst;
        split_iffs; intros H; try discriminate H; try reflexivity;
        try congruence; try tauto;
        try (destruct H as [H|[H|H]]; congruence);
        try (exfalso; destruct H as (_ & _ & H); apply H; simpl; tauto).
      split; [assumption|split; [reflexivity|]].
      simpl. intros [Hc|[Hc|[Hc|[Hc|[Hc|[Hc|[]]]]]]]; congruence.
Qed.

(** X3: every type node the mapper returns is built from the five type
    keywords, references without type arguments and array wrappers; a
    reference never carries an empty name, a name in array syntax or one of
    the recognised Swift names. *)
Theorem mapSwiftTypeToTsType_shape (type : string) :
  mappedShape (mapSwiftTypeToTsType type) = true.
Proof.
  induction type as [type IH] using swiftArray_induction.
  rewrite mapSwiftTypeToTsType_eq.
  destruct (negb (JsString.truthy type)) eqn:Hempty; [reflexivity|].
  apply negb_false_iff in Hempty.
  destruct (isSwiftArray type) eqn:Harr.
  - cbn [mappedShape]. apply IH. reflexivity.
  - unfold switchSwiftType.
    destruct (String.eqb type "unknown") eqn:E1; [reflexivity|].
    destruct (String.eqb type "String") eqn:E2; [reflexivity|].
    destruct (String.eqb type "Bool") eqn:E3; [reflexivity|].
    destruct (String.eqb type "Int") eqn:E4; [reflexivity|].
    destruct (String.eqb type "Float") eqn:E5; [reflexivity|].
    destruct (String.eqb type "Double") eqn:E6; [reflexivity|].
    cbn [mappedShape recognisedNames existsb].
    rewrite Hempty, Harr, E1, E2, E3, E4, E5, E6. reflexivity.
Qed.

Lemma unwrapSwiftArrayFully_structure (fuel : nat) (type : string) :
  String.length type < 2 * fuel + 2 ->
  let core := unwrapSwiftArrayFully fuel type in
  isSwiftArray core = false
  /\ mapSwiftTypeToTsType type
     = Nat.iter (arrayDepth (mapSwiftTypeToTsType type)) ArrayTypeNode
         (mapSwiftTypeToTsType core)
  /\ arrayDepth (mapSwiftTypeToTsType core) = 0
  /\ 2 * arrayDepth (mapSwiftTypeToTsType type) + String.length core
     = String.length type.
Proof.
  revert type. induction fuel as [|fuel IH]; intros type Hlen core.
  - assert (Harr : isSwiftArray type = false).
    { destruct (isSwiftArray type) eqn:Harr; [|reflexivity].
      apply isSwiftArray_length in Harr. lia. }
    subst core. cbn [unwrapSwiftArrayFully].
    assert (Hd : arrayDepth (mapSwiftTypeToTsType type) = 0).
    { rewrite mapSwiftTypeToTsType_eq, Harr.
      destruct (negb (JsString.truthy type)); [reflexivity|].
      switch_cases type; reflexivity. }
    rewrite Hd. split; [exact Harr|].
    split; [reflexivity|]. split; [reflexivity|]. lia.
  - subst core. cbn [unwrapSwiftArrayFully].
    destruct (isSwiftArray type) eqn:Harr.
    + pose proof (maybeUnwrapSwiftArray_length type Harr) as Hu.
      pose proof (isSwiftArray_length type Harr) as H2.
      destruct (IH (maybeUnwrapSwiftArray type)) as (Hc & Hm & Hz & Hl);
        [lia|].
      assert (Hmap : mapSwiftTypeToTsType type
                     = ArrayTypeNode
                         (mapSwiftTypeToTsType (maybeUnwrapSwiftArray type))).
      { rewrite (mapSwiftTypeToTsType_eq type), Harr.
        destruct (negb (JsString.truthy type)) eqn:He; [|reflexivity].
        apply truthy_false_iff in He. subst type. discriminate Harr. }
      rewrite Hmap. cbn [arrayDepth]. rewrite Nat.iter_succ.
      split; [exact Hc|]. split; [now rewrite <- Hm|].
      split; [exact Hz|]. lia.
    + assert (Hd : arrayDepth (mapSwiftTypeToTsType type) = 0).
      { rewrite mapSwiftTypeToTsType_eq, Harr.
        destruct (negb (JsString.truthy type)); [reflexivity|].
        switch_cases type; reflexivity. }
      rewrite Hd. split; [exact Harr|].
      split; [reflexivity|]. split; [reflexivity|]. lia.
Qed.

(** X4: every type name is its innermost name inside as many bracket
    pairs as the mapped type has array wrappers: the innermost name is not in
    array syntax, the mapped type is that many array wrappers around the
    mapping of the innermost name, and the name is two characters longer
    than the innermost name for each wrapper. *)
Theorem mapSwiftTypeToTsType_decomposition (type : string) :
  let core := unwrapSwiftArrayFully (String.length type) type in
  let depth := arrayDepth (mapSwiftTypeToTsType type) in
  isSwiftArray core = false
  /\ mapSwiftTypeToTsType type
     = Nat.iter depth ArrayTypeNode (mapSwiftTypeToTsType core)
  /\ innermostType (mapSwiftTypeToTsType type) = mapSwiftTypeToTsType core
  /\ 2 * depth + String.length core = String.length type.
Proof.
  intros core depth.
  destruct (unwrapSwiftArrayFully_structure (String.length type) type)
    as (Hc & Hm & Hz & Hl); [lia|].
  fold core in Hc, Hm, Hz, Hl. fold depth in Hm, Hl.
  repeat split; try assumption.
  rewrite Hm. clear Hm Hl. induction depth as [|d IHd]; simpl.
  - destruct (mapSwiftTypeToTsType core); try reflexivity. discriminate Hz.
  - exact IHd.
Qed.

(** ** Further properties of the declaration builder *)

(** X5: a built function has one parameter per parameter of the closure,
    in order, with the same name and the mapped type, and nothing else: no
    parameter has modifiers, a rest token, a question token or an
    initializer, and the function has no asterisk token and no type
    parameters. *)
Theorem getMockedFunctions_signature (fs : list Closure) (async : bool) :
  Forall2
    (fun (c : Closure) (d : FunctionDeclaration) =>
       fd_name d = closure_name c
       /\ map pd_name (fd_parameters d)
          = map param_name (closureParameters c)
       /\ map pd_type (fd_parameters d)
          = map (fun p => mapSwiftTypeToTsType (typename p))
                (closureParameters c)
       /\ Forall (fun p => pd_modifiers p = None
                           /\ pd_dotDotDotToken p = None
                           /\ pd_questionToken p = None
                           /\ pd_initializer p = None)
                 (fd_parameters d)
       /\ fd_asteriskToken d = None
       /\ fd_typeParameters d = None
       /\ multiLine (fd_body d) = true)
    fs (getMockedFunctions fs async).
Proof.
  induction fs as [|c fs IH]; constructor; [|exact IH].
  unfold mockedFunction, closureParameters. cbn.
  destruct (types c) as [t|]; cbn.
  - rewrite !map_map. cbn. repeat split.
    apply Forall_forall. intros p Hp.
    apply in_map_iff in Hp. destruct Hp as [q [<- _]]. cbn. auto.
  - repeat split. constructor.
Qed.

Lemma getMockReturnStatements_mapped_empty (r : string) :
  length (getMockReturnStatements (mapSwiftTypeToTsType r)) <= 1
  /\ (getMockReturnStatements (mapSwiftTypeToTsType r) = []
      <-> r = "" \/ (isSwiftArray r = false /\ ~ In r recognisedNames)).
Proof.
  rewrite mapSwiftTypeToTsType_eq.
  destruct (negb (JsString.truthy r)) eqn:Hempty.
  { apply truthy_false_iff in Hempty. cbn. split; [lia|]. tauto. }
  assert (Hne : r <> "") by (intros ->; discriminate Hempty).
  destruct (isSwiftArray r) eqn:Harr.
  { cbn. split; [lia|]. split; [discriminate|].
    intros [H|[H _]]; [contradiction|discriminate H]. }
  switch_cases r; cbn; (split; [lia|]).
  all: try (split; [discriminate|];
            intros [H|[_ H]]; [contradiction|];
            exfalso; apply H; subst r; simpl; tauto).
  split; [|reflexivity]. intros _. right. split; [reflexivity|].
  simpl. intros [Hc|[Hc|[Hc|[Hc|[Hc|[Hc|[]]]]]]]; congruence.
Qed.

(** X6: the body of a built function has at most one statement, and it is
    empty exactly when the return type name is absent, empty, or a name
    that is neither in array syntax nor recognised. *)
Theorem getMockedFunctions_body_empty (fs : list Closure) (async : bool) :
  Forall2
    (fun (c : Closure) (d : FunctionDeclaration) =>
       length (statements (fd_body d)) <= 1
       /\ (statements (fd_body d) = []
           <-> match returnTypeName c with
               | None => True
               | Some r =>
                   r = ""
                   \/ (isSwiftArray r = false /\ ~ In r recognisedNames)
               end))
    fs (getMockedFunctions fs async).
Proof.
  induction fs as [|c fs IH]; constructor; [|exact IH].
  unfold mockedFunction, returnTypeName. cbn [fd_body statements].
  set (rt := match types c with Some t => returnType t | None => None end).
  destruct rt as [r|]; cbn [mapSwiftTypeToTsType_opt].
  - apply getMockReturnStatements_mapped_empty.
  - cbn. split; [lia|]. tauto.
Qed.

(** ** Further properties of the module scanner *)

Lemma isTypeReferenceName_iff (n : string) :
  isTypeReferenceName n = true
  <-> n <> "" /\ isSwiftArray n = false /\ ~ In n recognisedNames.
Proof.
  unfold isTypeReferenceName. rewrite mapSwiftTypeToTsType_eq.
  destruct (negb (JsString.truthy n)) eqn:Hempty.
  { apply truthy_false_iff in Hempty. cbn. split; [discriminate|].
    intros [H _]. contradiction. }
  assert (Hne : n <> "") by (intros ->; discriminate Hempty).
  destruct (isSwiftArray n) eqn:Harr.
  { cbn. split; [discriminate|]. intros (_ & H & _). discriminate H. }
  switch_cases n; cbn.
  all: try (split; [discriminate|];
            intros (_ & _ & H); exfalso; apply H; subst n; simpl; tauto).
  split; [|reflexivity]. intros _. split; [exact Hne|]. split; [reflexivity|].
  simpl. intros [Hc|[Hc|[Hc|[Hc|[Hc|[Hc|[]]]]]]]; congruence.
Qed.

Lemma kind_TypeReference_iff (n : string) :
  kind (mapSwiftTypeToTsType n) = TypeReference <-> isTypeReferenceName n = true.
Proof.
  unfold isTypeReferenceName.
  destruct (kind (mapSwiftTypeToTsType n)); cbn; split;
    try reflexivity; discriminate.
Qed.


(** X7: a name is returned by the scanner exactly when it is not empty, not
    in array syntax and not a recognised Swift name, and some closure of the
    module mentions it as a parameter type or a non-empty return type,
    either as it is or inside one bracket pair; no name is returned
    twice. *)
Theorem getTypesToMock_exact (module : OutputModuleDefinition) :
  NoDup (getTypesToMock module)
  /\ forall n : string,
       In n (getTypesToMock module)
       <-> (n <> "" /\ isSwiftArray n = false /\ ~ In n recognisedNames)
           /\ exists c t,
                In c (moduleClosures module)
                /\ In t (closureTypeNames c)
                /\ (t = n \/ t = swiftArrayOf n).
Proof.
  destruct (getTypesToMock_members module) as [Hnodup Hmem].
  split; [exact Hnodup|]. intros n.
  rewrite Hmem, kind_TypeReference_iff, isTypeReferenceName_iff.
  split.
  - intros [(c & t & Hc & Ht & Hn) Hopaque]. split; [exact Hopaque|].
    exists c, t. split; [exact Hc|]. split; [exact Ht|].
    destruct (isSwiftArray t) eqn:Harr.
    + right. destruct (isSwiftArray_inv t Harr) as [T ->].
      rewrite maybeUnwrapSwiftArray_swiftArrayOf in Hn. now subst.
    + left. unfold maybeUnwrapSwiftArray in Hn. unfold isSwiftArray in Harr.
      rewrite Harr in Hn. cbn in Hn. now subst.
  - intros [Hopaque (c & t & Hc & Ht & Hn)]. split; [|exact Hopaque].
    exists c, t. split; [exact Hc|]. split; [exact Ht|].
    destruct Hn as [->| ->].
    + destruct Hopaque as (_ & Harr & _).
      unfold maybeUnwrapSwiftArray. unfold isSwiftArray in Harr.
      now rewrite Harr.
    + now rewrite maybeUnwrapSwiftArray_swiftArrayOf.
Qed.

Lemma mapSwiftTypeToTsType_array_inv (s : string) (e : TypeNode) :
  mapSwiftTypeToTsType s = ArrayTypeNode e ->
  isSwiftArray s = true /\ mapSwiftTypeToTsType (maybeUnwrapSwiftArray s) = e.
Proof.
  rewrite (mapSwiftTypeToTsType_eq s).
  destruct (negb (JsString.truthy s)); [discriminate|].
  destruct (isSwiftArray s).
  - intros H. injection H as H. auto.
  - switch_cases s; discriminate.
Qed.

(** X8: when a parameter type or the return type of a plain or async
    function maps to a reference to [n], or to an array of references to
    [n], the generated declarations contain the exported alias of [n] to
    any. *)
Theorem getMockForModule_alias_coverage
    (module : OutputModuleDefinition) (c : Closure) (s n : string) :
  In c (functions module ++ asyncFunctions module) ->
  In s (map typename (closureParameters c)) \/ returnTypeName c = Some s ->
  mapSwiftTypeToTsType s = TypeReferenceNode n None
  \/ mapSwiftTypeToTsType s = ArrayTypeNode (TypeReferenceNode n None) ->
  In (TypeAliasDecl
        (createTypeAliasDeclaration
           [ExportKeyword] n None (KeywordTypeNode AnyKeyword)))
     (getMockForModule module).
Proof.
  intros Hc Hs Hmap.
  assert (Hne : s <> "").
  { intros ->. destruct Hmap as [H|H]; vm_compute in H; discriminate H. }
  assert (Hnames : In s (closureTypeNames c)).
  { unfold closureTypeNames, closureParameters, returnTypeName in *.
    destruct (types c) as [t|]; [|destruct Hs as [[]|Hs]; discriminate Hs].
    apply in_app_iff. destruct Hs as [Hs|Hs]; [left; exact Hs|right].
    rewrite Hs. unfold JsString.truthy.
    destruct (String.eqb_spec s ""); [contradiction|]. now left. }
  assert (Hn : n = maybeUnwrapSwiftArray s
               /\ kind (mapSwiftTypeToTsType n) = TypeReference).
  { destruct Hmap as [Hm|Hm].
    - assert (Hk : kind (mapSwiftTypeToTsType s) = TypeReference)
        by now rewrite Hm.
      pose proof (mapSwiftTypeToTsType_reference s Hk) as Hr.
      rewrite Hm in Hr. injection Hr as ->.
      apply kind_TypeReference_iff, isTypeReferenceName_iff in Hk.
      destruct Hk as (_ & Harr & _).
      unfold maybeUnwrapSwiftArray. unfold isSwiftArray in Harr.
      rewrite Harr. cbn. split; [reflexivity|now rewrite Hm].
    - apply mapSwiftTypeToTsType_array_inv in Hm. destruct Hm as [_ Hm].
      assert (Hk : kind (mapSwiftTypeToTsType (maybeUnwrapSwiftArray s))
                   = TypeReference) by now rewrite Hm.
      pose proof (mapSwiftTypeToTsType_reference _ Hk) as Hr.
      rewrite Hm in Hr. injection Hr as ->. auto. }
  destruct Hn as [Hn Hk].
  assert (Hin : In n (getTypesToMock module)).
  { apply (proj2 (getTypesToMock_members module)). split; [|exact Hk].
    exists c, s. split; [|split; [exact Hnames|exact Hn]].
    unfold moduleClosures. rewrite app_assoc. apply in_app_iff. now left. }
  unfold getMockForModule. cbn [app]. apply in_app_iff. left.
  apply in_map. unfold getMockedTypes.
  apply in_map_iff. exists n. auto.
Qed.

Lemma getMockForModule_alias_coverage_witness :
  In (TypeAliasDecl
        (createTypeAliasDeclaration
           [ExportKeyword] "Bar" None (KeywordTypeNode AnyKeyword)))
     (getMockForModule
        (mkModule "M" []
           [mkClosure "g" (Some (mkClosureTypes [] (Some "[Bar]")))] [])).
Proof.
  apply (getMockForModule_alias_coverage
           (mkModule "M" []
              [mkClosure "g" (Some (mkClosureTypes [] (Some "[Bar]")))] [])
           (mkClosure "g" (Some (mkClosureTypes [] (Some "[Bar]"))))
           "[Bar]" "Bar").
  - left. reflexivity.
  - right. reflexivity.
  - right. vm_compute. reflexivity.
Defined.

(** X9: the aliases of a module have pairwise distinct names, one per
    name the scanner returned and in the same order, and each is exported,
    has no type parameters and aliases the any keyword. *)
Theorem getMockedTypes_aliases (module : OutputModuleDefinition) :
  let aliases := getMockedTypes (getTypesToMock module) in
  NoDup (map ta_name aliases)
  /\ map ta_name aliases = getTypesToMock module
  /\ Forall (fun a => ta_modifiers a = [ExportKeyword]
                      /\ ta_typeParameters a = None
                      /\ ta_type a = KeywordTypeNode AnyKeyword
                      /\ mapSwiftTypeToTsType (ta_name a)
                         = TypeReferenceNode (ta_name a) None)
            aliases.
Proof.
  intros aliases. subst aliases. rewrite getMockedTypes_names.
  split; [apply (proj1 (getTypesToMock_members module))|].
  split; [reflexivity|].
  apply Forall_forall. intros a Ha. unfold getMockedTypes in Ha.
  apply in_map_iff in Ha. destruct Ha as [n [<- Hn]]. cbn.
  repeat split.
  apply mapSwiftTypeToTsType_reference.
  apply (proj2 (getTypesToMock_members module)) in Hn. apply Hn.
Qed.




(** ** The collapsible section: the hash of the path and the open state *)

Lemma split_nonempty (sep : ascii) (s : string) :
  Collapsible.split sep s <> [].
Proof.
  destruct s as [|c r]; cbn; [discriminate|].
  destruct (Ascii.eqb c sep); [discriminate|].
  destruct (Collapsible.split sep r); discriminate.
Qed.

(** No piece of a split contains the separator. *)
Lemma split_pieces (sep : ascii) (s : string) :
  Forall (fun piece => Collapsible.occurs sep piece = false)
         (Collapsible.split sep s).
Proof.
  induction s as [|c r IH]; cbn.
  - constructor; [reflexivity|constructor].
  - destruct (Ascii.eqb c sep) eqn:Hc.
    + constructor; [reflexivity|exact IH].
    + destruct (Collapsible.split sep r) as [|piece pieces].
      * constructor; [cbn; now rewrite Hc|constructor].
      * inversion IH as [|? ? Hp Hps]; subst.
        constructor; [cbn; now rewrite Hc, Hp|exact Hps].
Qed.

Lemma hashMatches_false (asPath slug : string) :
  Collapsible.hashMatches asPath slug = false.
Proof.
  unfold Collapsible.hashMatches, Collapsible.hashOf.
  destruct (Nat.eqb (length (Collapsible.split "#" asPath)) 0);
    [reflexivity|].
  destruct (nth_error (Collapsible.split "#" asPath) 1) as [hash|] eqn:Hn;
    [|reflexivity].
  apply nth_error_In in Hn.
  pose proof (split_pieces "#" asPath) as Hall.
  rewrite Forall_forall in Hall. specialize (Hall hash Hn).
  destruct (String.eqb_spec hash ("#" ++ slug)%string) as [->|_].
  - cbn in Hall. discriminate Hall.
  - apply andb_false_r.
Qed.

(** X11: the guard of the effect is false for every path and every slug:
    the hash it reads is a piece of the path split at the hash sign and so
    contains no hash sign, while the text it is compared with starts with
    one.  The effect therefore leaves the open state as it is. *)
Theorem hashEffect_never_opens (asPath slug : string) (open : bool) :
  Collapsible.hashMatches asPath slug = false
  /\ Collapsible.hashEffect asPath slug open = open
  /\ (forall hash : string,
        Collapsible.hashOf asPath = Some hash ->
        Collapsible.occurs "#" hash = false).
Proof.
  split; [apply hashMatches_false|]. split.
  - unfold Collapsible.hashEffect. now rewrite hashMatches_false.
  - intros hash. unfold Collapsible.hashOf.
    destruct (Nat.eqb (length (Collapsible.split "#" asPath)) 0);
      [discriminate|].
    intros Hn. apply nth_error_In in Hn.
    pose proof (split_pieces "#" asPath) as Hall.
    rewrite Forall_forall in Hall. exact (Hall hash Hn).
Qed.

Lemma hashEffect_never_opens_witness :
  Collapsible.occurs "#" "install" = false.
Proof.
  apply (proj2 (proj2 (hashEffect_never_opens "/guide#install" "install" false))
           "install").
  reflexivity.
Defined.


(** ** Resolution of native modules *)

Lemma nullish_not_truthy (v : Js.JsValue) :
  Js.isNullish v = true -> Js.truthy v = false.
Proof. destruct v; cbn; intros H; try discriminate H; reflexivity. Qed.

(** X13: the call returns the first of the three lookups (host object
    table, legacy global table, bridge proxy) that is not nullish when
    that value is truthy, and throws with the module name in the message
    in every other case: when all three are nullish, and when the first
    one that is not nullish is falsy. *)
Theorem requireNativeModule_first_present
    (globalThis : NativeModules.Globals)
    (NativeModulesProxy : NativeModules.ModuleTable) (moduleName : string) :
  NativeModules.requireNativeModule globalThis NativeModulesProxy moduleName
  = match NativeModules.firstPresent
            (NativeModules.candidates globalThis NativeModulesProxy moduleName)
    with
    | Some v =>
        if Js.truthy v then NativeModules.Return v
        else NativeModules.Throw
               ("Cannot find native module '" ++ moduleName ++ "'")%string
    | None =>
        NativeModules.Throw
          ("Cannot find native module '" ++ moduleName ++ "'")%string
    end.
Proof.
  unfold NativeModules.requireNativeModule, NativeModules.firstPresent,
    NativeModules.candidates, Js.nullishCoalesce.
  set (a := NativeModules.expoModule globalThis moduleName).
  set (b := NativeModules.legacyModule globalThis moduleName).
  set (c := NativeModulesProxy moduleName).
  cbn [find].
  destruct (Js.isNullish a) eqn:Ha;
    destruct (Js.isNullish b) eqn:Hb;
    destruct (Js.isNullish c) eqn:Hc;
    cbn [negb]; rewrite ?Ha, ?Hb, ?Hc;
    try rewrite (nullish_not_truthy c Hc);
    try reflexivity;
    match goal with
    | |- context [Js.truthy ?x] =>
        destruct (Js.truthy x); reflexivity
    end.
Qed.

(** X14: a returned module is truthy and is one of the three lookups, and
    every lookup preferred to the one returned is nullish; a thrown error
    always carries the message naming the module. *)
Theorem requireNativeModule_sound
    (globalThis : NativeModules.Globals)
    (NativeModulesProxy : NativeModules.ModuleTable) (moduleName : string) :
  (forall v : Js.JsValue,
      NativeModules.requireNativeModule globalThis NativeModulesProxy moduleName
      = NativeModules.Return v ->
      Js.truthy v = true
      /\ exists before after : list Js.JsValue,
           NativeModules.candidates globalThis NativeModulesProxy moduleName
           = before ++ v :: after
           /\ Forall (fun w => Js.isNullish w = true) before)
  /\ (forall message : string,
        NativeModules.requireNativeModule globalThis NativeModulesProxy
          moduleName
        = NativeModules.Throw message ->
        message = ("Cannot find native module '" ++ moduleName ++ "'")%string).
Proof.
  unfold NativeModules.requireNativeModule, NativeModules.candidates,
    Js.nullishCoalesce.
  set (a := NativeModules.expoModule globalThis moduleName).
  set (b := NativeModules.legacyModule globalThis moduleName).
  set (c := NativeModulesProxy moduleName).
  split.
  - intros v.
    destruct (Js.isNullish a) eqn:Ha;
      [destruct (Js.isNullish b) eqn:Hb|];
      cbv iota; rewrite ?Ha, ?Hb; cbv iota.
    + destruct (Js.truthy c) eqn:Ht; cbn [negb];
        intros H; [|discriminate H]. injection H as <-.
      split; [exact Ht|]. exists [a; b], []. split; [reflexivity|].
      repeat constructor; assumption.
    + destruct (Js.truthy b) eqn:Ht; cbn [negb];
        intros H; [|discriminate H]. injection H as <-.
      split; [exact Ht|]. exists [a], [c]. split; [reflexivity|].
      repeat constructor; assumption.
    + destruct (Js.truthy a) eqn:Ht; cbn [negb];
        intros H; [|discriminate H]. injection H as <-.
      split; [exact Ht|]. exists [], [b; c]. split; [reflexivity|].
      constructor.
  - intros message.
    match goal with
    | |- (if negb ?t then _ else _) = _ -> _ => destruct t
    end; cbn [negb]; intros H; [discriminate H|].
    now injection H as <-.
Qed.

Lemma requireNativeModule_sound_witness :
  Js.truthy (Js.JsObject 7) = true
  /\ ("Cannot find native module 'Camera'" = "Cannot find native module 'Camera'").
Proof.
  split.
  - apply (proj1 (requireNativeModule_sound
                    (NativeModules.mkGlobals None None)
                    (fun _ => Js.JsObject 7) "Camera")
             (Js.JsObject 7)).
    reflexivity.
  - apply (proj2 (requireNativeModule_sound
                    (NativeModules.mkGlobals None None)
                    (fun _ => Js.JsUndefined) "Camera")
             "Cannot find native module 'Camera'").
    reflexivity.
Defined.

(** X15: a value in the host object table that is falsy but not nullish
    (false, 0, NaN or the empty string) makes the call throw whatever the
    legacy table and the bridge proxy hold for the name. *)
Theorem requireNativeModule_falsy_entry_shadows
    (table : NativeModules.ModuleTable)
    (legacy : option NativeModules.ModuleTable)
    (NativeModulesProxy : NativeModules.ModuleTable) (moduleName : string) :
  Js.isNullish (table moduleName) = false ->
  Js.truthy (table moduleName) = false ->
  NativeModules.requireNativeModule
    (NativeModules.mkGlobals (Some (NativeModules.mkExpo (Some table))) legacy)
    NativeModulesProxy moduleName
  = NativeModules.Throw
      ("Cannot find native module '" ++ moduleName ++ "'")%string.
Proof.
  intros Hn Ht.
  unfold NativeModules.requireNativeModule, Js.nullishCoalesce,
    NativeModules.expoModule.
  cbn [NativeModules.expo NativeModules.modules].
  rewrite Hn. cbv iota. rewrite Hn, Ht. reflexivity.
Qed.

Lemma requireNativeModule_falsy_entry_shadows_witness :
  NativeModules.requireNativeModule
    (NativeModules.mkGlobals
       (Some (NativeModules.mkExpo
                (Some (fun _ => Js.JsBoolean false))))
       None)
    (fun _ => Js.JsObject 1) "Camera"
  = NativeModules.Throw "Cannot find native module 'Camera'".
Proof.
  apply (requireNativeModule_falsy_entry_shadows
           (fun _ => Js.JsBoolean false) None
           (fun _ => Js.JsObject 1) "Camera");
    reflexivity.
Defined.

(** X16: when the host object is missing, has no module table, or holds a
    nullish value for the name, and likewise the legacy table, the call
    is decided by the bridge proxy alone. *)
Theorem requireNativeModule_falls_back_to_proxy
    (globalThis : NativeModules.Globals)
    (NativeModulesProxy : NativeModules.ModuleTable) (moduleName : string) :
  Js.isNullish (NativeModules.expoModule globalThis moduleName)
  = true ->
  Js.isNullish (NativeModules.legacyModule globalThis moduleName)
  = true ->
  NativeModules.requireNativeModule globalThis NativeModulesProxy moduleName
  = NativeModules.requireNativeModule
      (NativeModules.mkGlobals None None) NativeModulesProxy moduleName.
Proof.
  intros H1 H2.
  unfold NativeModules.requireNativeModule, Js.nullishCoalesce.
  rewrite H1, H2. reflexivity.
Qed.

Lemma requireNativeModule_falls_back_to_proxy_witness :
  NativeModules.requireNativeModule
    (NativeModules.mkGlobals
       (Some (NativeModules.mkExpo None))
       (Some (fun _ => Js.JsNull)))
    (fun _ => Js.JsObject 3) "Camera"
  = NativeModules.requireNativeModule
      (NativeModules.mkGlobals None None)
      (fun _ => Js.JsObject 3) "Camera".
Proof.
  apply (requireNativeModule_falls_back_to_proxy
           (NativeModules.mkGlobals
              (Some (NativeModules.mkExpo None))
              (Some (fun _ => Js.JsNull)))
           (fun _ => Js.JsObject 3) "Camera");
    reflexivity.
Defined.

(** ** The driver: files written by a run *)

Lemma find_app_first {A : Type} (f : A -> bool) (l l' : list A) :
  find f (l ++ l')
  = match find f l with Some x => Some x | None => find f l' end.
Proof.
  induction l as [|a l IH]; cbn; [reflexivity|].
  destruct (f a); [reflexivity|exact IH].
Qed.

Section GenerateMocksFacts.

Variable directoryPath : string.
Variable path_join : list string -> string.
Variable FileSystem : Type.
Variable mkdirSync : FileSystem -> string -> option FileSystem.
Variable writeFileSync : FileSystem -> string -> string -> option FileSystem.
Variable emit : string -> list Declaration -> option string.

(** Reading a file back. *)
Variable readFile : FileSystem -> string -> option string.

Hypothesis mkdirSync_keeps_files :
  forall fs dir fs', mkdirSync fs dir = Some fs' ->
  forall p, readFile fs' p = readFile fs p.

Hypothesis writeFileSync_written :
  forall fs p content fs', writeFileSync fs p content = Some fs' ->
  readFile fs' p = Some content.

Hypothesis writeFileSync_keeps_others :
  forall fs p content fs', writeFileSync fs p content = Some fs' ->
  forall q, q <> p -> readFile fs' q = readFile fs q.

Local Abbreviation run :=
  (generateMocks directoryPath path_join FileSystem mkdirSync writeFileSync emit).
Local Abbreviation pathOf := (mockFilePath directoryPath path_join).

Lemma generateMocks_files (modules : list OutputModuleDefinition) :
  forall fs fs', run modules fs = (fs', true) ->
  forall p,
    readFile fs' p
    = match find (fun m => String.eqb (pathOf m) p) (rev modules) with
      | Some m => emit (module_name m ++ ".ts")%string (getMockForModule m)
      | None => readFile fs p
      end.
Proof.
  induction modules as [|m modules IH]; intros fs fs' Hrun p.
  - cbn in Hrun. injection Hrun as <-. reflexivity.
  - cbn [generateMocks] in Hrun.
    destruct (mkdirSync fs (path_join [directoryPath; "mocks"]))
      as [fs1|] eqn:Hmk; [|discriminate Hrun].
    destruct (emit (module_name m ++ ".ts")%string (getMockForModule m))
      as [prettyJs|] eqn:Hemit; [|discriminate Hrun].
    destruct (writeFileSync fs1 (pathOf m) prettyJs)
      as [fs2|] eqn:Hwr; [|discriminate Hrun].
    rewrite (IH fs2 fs' Hrun p). cbn [rev]. rewrite find_app_first.
    destruct (find (fun m0 => String.eqb (pathOf m0) p) (rev modules));
      [reflexivity|].
    cbn [find]. destruct (String.eqb_spec (pathOf m) p) as [<-|Hne].
    + rewrite Hemit. eapply writeFileSync_written. exact Hwr.
    + rewrite (writeFileSync_keeps_others _ _ _ _ Hwr p) by congruence.
      eapply mkdirSync_keeps_files. exact Hmk.
Qed.

(** X17: after a run that completes, a path that is the file path of some
    module holds the output of the last such module of the list, and every
    other path holds what it held before the run. *)
Theorem generateMocks_last_writer_wins
    (modules : list OutputModuleDefinition) (fs fs' : FileSystem) (p : string) :
  run modules fs = (fs', true) ->
  readFile fs' p
  = match find (fun m => String.eqb (pathOf m) p) (rev modules) with
    | Some m => emit (module_name m ++ ".ts")%string (getMockForModule m)
    | None => readFile fs p
    end.
Proof. intros Hrun. exact (generateMocks_files modules fs fs' Hrun p). Qed.

(** X18: running the generator a second time on the same modules changes
    no file: when both runs complete, every path reads the same after the
    second run as after the first. *)
Theorem generateMocks_rerun_same_files
    (modules : list OutputModuleDefinition) (fs fs1 fs2 : FileSystem)
    (p : string) :
  run modules fs = (fs1, true) ->
  run modules fs1 = (fs2, true) ->
  readFile fs2 p = readFile fs1 p.
Proof.
  intros H1 H2.
  rewrite (generateMocks_files modules fs1 fs2 H2 p).
  rewrite (generateMocks_files modules fs fs1 H1 p).
  destruct (find (fun m => String.eqb (pathOf m) p) (rev modules));
    reflexivity.
Qed.

(** X19: a run that stops at a throwing step has completed the modules
    before the failing one and keeps their files: the result reads as the
    file system left by the completed run on those modules, and one of the
    three steps threw on the failing module. *)
Theorem generateMocks_stops_at_first_failure
    (modules : list OutputModuleDefinition) (fs fs' : FileSystem) :
  run modules fs = (fs', false) ->
  exists (done : list OutputModuleDefinition) (m : OutputModuleDefinition)
         (rest : list OutputModuleDefinition) (fsd : FileSystem),
    modules = done ++ m :: rest
    /\ run done fs = (fsd, true)
    /\ (forall p, readFile fs' p = readFile fsd p)
    /\ (mkdirSync fsd (path_join [directoryPath; "mocks"]) = None
        \/ emit (module_name m ++ ".ts")%string (getMockForModule m) = None
        \/ exists fsm prettyJs,
             mkdirSync fsd (path_join [directoryPath; "mocks"]) = Some fsm
             /\ emit (module_name m ++ ".ts")%string (getMockForModule m)
                = Some prettyJs
             /\ writeFileSync fsm (pathOf m) prettyJs = None).
Proof.
  revert fs. induction modules as [|m modules IH]; intros fs Hrun.
  - discriminate Hrun.
  - cbn [generateMocks] in Hrun.
    destruct (mkdirSync fs (path_join [directoryPath; "mocks"]))
      as [fs1|] eqn:Hmk.
    2:{ injection Hrun as <-. exists [], m, modules, fs.
        repeat split; auto. }
    destruct (emit (module_name m ++ ".ts")%string (getMockForModule m))
      as [prettyJs|] eqn:Hemit.
    2:{ injection Hrun as <-. exists [], m, modules, fs.
        split; [reflexivity|]. split; [reflexivity|].
        split; [|right; left; exact Hemit].
        intros p. eapply mkdirSync_keeps_files. exact Hmk. }
    destruct (writeFileSync fs1 (pathOf m) prettyJs) as [fs2|] eqn:Hwr.
    2:{ injection Hrun as <-. exists [], m, modules, fs.
        split; [reflexivity|]. split; [reflexivity|].
        split; [intros p; eapply mkdirSync_keeps_files; exact Hmk|].
        right; right. exists fs1, prettyJs. auto. }
    destruct (IH fs2 Hrun) as (done & m' & rest & fsd & -> & Hd & Hr & Hf).
    exists (m :: done), m', rest, fsd.
    split; [reflexivity|]. split; [|split; [exact Hr|exact Hf]].
    cbn [generateMocks]. rewrite Hmk, Hemit, Hwr. exact Hd.
Qed.

End GenerateMocksFacts.

Lemma MemoryFs_written (fs : MemoryFs.FileSystem) (p content : string)
    (fs' : MemoryFs.FileSystem) :
  MemoryFs.writeFileSync fs p content = Some fs' ->
  MemoryFs.readFile fs' p = Some content.
Proof.
  intros H. injection H as <-. cbn. now rewrite String.eqb_refl.
Defined.

Lemma MemoryFs_keeps_others (fs : MemoryFs.FileSystem) (p content : string)
    (fs' : MemoryFs.FileSystem) :
  MemoryFs.writeFileSync fs p content = Some fs' ->
  forall q, q <> p -> MemoryFs.readFile fs' q = MemoryFs.readFile fs q.
Proof.
  intros H q Hq. injection H as <-. cbn.
  destruct (String.eqb_spec p q); [congruence|reflexivity].
Defined.

Lemma MemoryFs_mkdir (fs : MemoryFs.FileSystem) (dir : string)
    (fs' : MemoryFs.FileSystem) :
  MemoryFs.mkdirSync fs dir = Some fs' ->
  forall p, MemoryFs.readFile fs' p = MemoryFs.readFile fs p.
Proof. intros H p. now injection H as <-. Defined.

Lemma generateMocks_last_writer_wins_witness :
  MemoryFs.readFile
    (fst (generateMocks "/app" MemoryFs.path_join MemoryFs.FileSystem
            MemoryFs.mkdirSync MemoryFs.writeFileSync MemoryFs.emit
            [mkModule "A" [mkClosure "f" None] [] [];
             mkModule "A" [mkClosure "f" None; mkClosure "g" None] [] []]
            []))
    "/app/mocks/A.ts"
  = Some "**".
Proof.
  apply (generateMocks_last_writer_wins
           "/app" MemoryFs.path_join MemoryFs.FileSystem
           MemoryFs.mkdirSync MemoryFs.writeFileSync MemoryFs.emit
           MemoryFs.readFile
           MemoryFs_mkdir MemoryFs_written MemoryFs_keeps_others
           [mkModule "A" [mkClosure "f" None] [] [];
            mkModule "A" [mkClosure "f" None; mkClosure "g" None] [] []]
           [] _ "/app/mocks/A.ts").
  reflexivity.
Defined.

Lemma generateMocks_rerun_same_files_witness :
  MemoryFs.readFile
    [("/app/mocks/A.ts", "*"); ("/app/mocks/A.ts", "*")] "/app/mocks/A.ts"
  = MemoryFs.readFile [("/app/mocks/A.ts", "*")] "/app/mocks/A.ts".
Proof.
  apply (generateMocks_rerun_same_files
           "/app" MemoryFs.path_join MemoryFs.FileSystem
           MemoryFs.mkdirSync MemoryFs.writeFileSync MemoryFs.emit
           MemoryFs.readFile
           MemoryFs_mkdir MemoryFs_written MemoryFs_keeps_others
           [mkModule "A" [mkClosure "f" None] [] []]
           [] [("/app/mocks/A.ts", "*")]
           [("/app/mocks/A.ts", "*"); ("/app/mocks/A.ts", "*")]
           "/app/mocks/A.ts");
    reflexivity.
Defined.

Lemma generateMocks_stops_at_first_failure_witness :
  exists (done : list OutputModuleDefinition) (m : OutputModuleDefinition)
         (rest : list OutputModuleDefinition) (fsd : MemoryFs.FileSystem),
    [mkModule "A" [] [] []; mkModule "Bad" [] [] []; mkModule "C" [] [] []]
    = done ++ m :: rest
    /\ generateMocks "/app" MemoryFs.path_join MemoryFs.FileSystem
         MemoryFs.mkdirSync MemoryFs.writeFileSync MemoryFs.emit done []
       = (fsd, true)
    /\ (forall p,
          MemoryFs.readFile [("/app/mocks/A.ts", "")] p
          = MemoryFs.readFile fsd p)
    /\ (MemoryFs.mkdirSync fsd (MemoryFs.path_join ["/app"; "mocks"]) = None
        \/ MemoryFs.emit (module_name m ++ ".ts")%string (getMockForModule m)
           = None
        \/ exists fsm prettyJs,
             MemoryFs.mkdirSync fsd (MemoryFs.path_join ["/app"; "mocks"])
             = Some fsm
             /\ MemoryFs.emit (module_name m ++ ".ts")%string
                  (getMockForModule m)
                = Some prettyJs
             /\ MemoryFs.writeFileSync fsm
                  (mockFilePath "/app" MemoryFs.path_join m) prettyJs
                = None).
Proof.
  apply (generateMocks_stops_at_first_failure
           "/app" MemoryFs.path_join MemoryFs.FileSystem
           MemoryFs.mkdirSync MemoryFs.writeFileSync MemoryFs.emit
           MemoryFs.readFile MemoryFs_mkdir
           [mkModule "A" [] [] []; mkModule "Bad" [] [] [];
            mkModule "C" [] [] []]
           [] [("/app/mocks/A.ts", "")]).
  reflexivity.
Defined.

(** ** The Babel preset *)

Lemma prefix_append (s t : string) : String.prefix s (s ++ t)%string = true.
Proof.
  induction s as [|c s IH]; cbn.
  - destruct t; reflexivity.
  - destruct (Ascii.ascii_dec c c) as [_|n]; [exact IH|now elim n].
Qed.

Lemma includes_append (a s b : string) :
  BabelPreset.includes (a ++ s ++ b)%string s = true.
Proof.
  induction a as [|c a IH]; cbn [String.append].
  - destruct (s ++ b)%string eqn:E; cbn [BabelPreset.includes];
      rewrite <- E, prefix_append; reflexivity.
  - cbn [BabelPreset.includes]. rewrite IH. apply orb_true_r.
Qed.

(** X20: [hasModule] answers true exactly when the name resolves to a
    non-empty path, answers false when it resolves to an empty path or
    resolution fails with code MODULE_NOT_FOUND and a message that
    contains the name, and rethrows every other resolution error
    unchanged. *)
Theorem hasModule_exact
    (resolve : string -> BabelPreset.Resolution) (name : string) :
  (BabelPreset.hasModule resolve name = BabelPreset.Ok true
   <-> exists path, resolve name = BabelPreset.Resolved path /\ path <> "")
  /\ (BabelPreset.hasModule resolve name = BabelPreset.Ok false
      <-> resolve name = BabelPreset.Resolved ""
          \/ exists message,
               resolve name
               = BabelPreset.ResolveError (Some "MODULE_NOT_FOUND") message
               /\ BabelPreset.includes message name = true)
  /\ (forall code message,
        BabelPreset.hasModule resolve name = BabelPreset.Thrown code message
        <-> resolve name = BabelPreset.ResolveError code message
            /\ (code <> Some "MODULE_NOT_FOUND"
                \/ BabelPreset.includes message name = false)).
Proof.
  unfold BabelPreset.hasModule.
  destruct (resolve name) as [path|code message].
  - rewrite negb_involutive. unfold JsString.truthy.
    destruct (String.eqb_spec path "") as [->|Hne]; cbn.
    + split; [|split].
      * split; [discriminate|]. intros (p & H & Hp). injection H as <-.
        now elim Hp.
      * split; [auto|reflexivity].
      * intros c m. split; [discriminate|]. intros [H _]. discriminate H.
    + split; [|split].
      * split; [|reflexivity]. intros _. exists path. auto.
      * split; [discriminate|].
        intros [H|(m & H & _)]; [|discriminate H].
        injection H as ->. now elim Hne.
      * intros c m. split; [discriminate|]. intros [H _]. discriminate H.
  - destruct code as [c|].
    + destruct (String.eqb_spec c "MODULE_NOT_FOUND") as [->|Hc]; cbn [andb].
      * destruct (BabelPreset.includes message name) eqn:Hinc.
        -- split; [|split].
           ++ split; [discriminate|]. intros (p & H & _). discriminate H.
           ++ split; [|reflexivity]. intros _. right. exists message. auto.
           ++ intros c m. split; [discriminate|].
              intros [H [Hn|Hn]]; injection H as <- <-;
                [now elim Hn|congruence].
        -- split; [|split].
           ++ split; [discriminate|]. intros (p & H & _). discriminate H.
           ++ split; [discriminate|].
              intros [H|(m & H & Hm)]; [discriminate H|].
              injection H as <-. congruence.
           ++ intros c m. split.
              ** intros H. injection H as <- <-. auto.
              ** intros [H _]. injection H as <- <-. reflexivity.
      * split; [|split].
        -- split; [discriminate|]. intros (p & H & _). discriminate H.
        -- split; [discriminate|].
           intros [H|(m & H & _)]; [discriminate H|].
           injection H as ->. now elim Hc.
        -- intros c' m. split.
           ++ intros H. injection H as <- <-. split; [reflexivity|].
              left. congruence.
           ++ intros [H _]. injection H as <- <-. reflexivity.
    + cbn [andb]. split; [|split].
      * split; [discriminate|]. intros (p & H & _). discriminate H.
      * split; [discriminate|].
        intros [H|(m & H & _)]; discriminate H.
      * intros c' m. split.
        -- intros H. injection H as <- <-. split; [reflexivity|].
           left. discriminate.
        -- intros [H _]. injection H as <- <-. reflexivity.
Qed.

Lemma isString_iff (v : Js.JsValue) (literal : string) :
  Js.isString v literal = true <-> v = Js.JsStringValue literal.
Proof.
  destruct v; cbn; try (split; [discriminate|intros H; discriminate H]).
  destruct (String.eqb_spec s literal) as [->|Hne]; split;
    try reflexivity; try discriminate.
  intros H. injection H as ->. now elim Hne.
Qed.

(** X21: the bundler is taken to be webpack exactly when there is a
    caller and either its [bundler] is the string webpack, or its
    [bundler] is falsy and its name is one of the two loader names; without
    a caller the bundler is null, and with one it is never falsy. *)
Theorem getBundler_webpack (caller : option BabelPreset.Caller) :
  (Js.isString (BabelPreset.getBundler caller) "webpack" = true
   <-> exists c,
         caller = Some c
         /\ (BabelPreset.caller_bundler c = Js.JsStringValue "webpack"
             \/ (Js.truthy (BabelPreset.caller_bundler c) = false
                 /\ (BabelPreset.caller_name c
                     = Js.JsStringValue "next-babel-turbo-loader"
                     \/ BabelPreset.caller_name c
                        = Js.JsStringValue "babel-loader"))))
  /\ (BabelPreset.getBundler caller = Js.JsNull <-> caller = None)
  /\ (caller <> None -> Js.truthy (BabelPreset.getBundler caller) = true).
Proof.
  destruct caller as [c|]; cbn [BabelPreset.getBundler].
  - destruct (Js.truthy (BabelPreset.caller_bundler c)) eqn:Ht.
    + split; [|split].
      * rewrite isString_iff. split.
        -- intros H. exists c. auto.
        -- intros (c' & Hc & [H|[H _]]); injection Hc as <-;
             [exact H|congruence].
      * split; [|discriminate]. intros H. rewrite H in Ht. discriminate Ht.
      * intros _. exact Ht.
    + destruct (Js.isString (BabelPreset.caller_name c)
                  "next-babel-turbo-loader"
                || Js.isString (BabelPreset.caller_name c) "babel-loader")
        eqn:Hname.
      * split; [|split].
        -- split; [|reflexivity]. intros _. exists c. split; [reflexivity|].
           right. split; [exact Ht|].
           apply orb_true_iff in Hname.
           destruct Hname as [H|H]; apply isString_iff in H; auto.
        -- split; discriminate.
        -- reflexivity.
      * split; [|split].
        -- split; [discriminate|].
           intros (c' & Hc & H). injection Hc as <-.
           apply orb_false_iff in Hname. destruct Hname as [H1 H2].
           destruct H as [H|[_ [H|H]]].
           ++ rewrite H in Ht. discriminate Ht.
           ++ apply isString_iff in H. congruence.
           ++ apply isString_iff in H. congruence.
        -- split; discriminate.
        -- reflexivity.
  - split; [|split].
    + split; [discriminate|]. intros (c & H & _). discriminate H.
    + split; reflexivity.
    + intros H. now elim H.
Qed.

Lemma getBundler_webpack_witness :
  Js.truthy
    (BabelPreset.getBundler
       (Some (BabelPreset.mkCaller (Js.JsStringValue "babel-loader")
                Js.JsUndefined Js.JsUndefined)))
  = true.
Proof.
  apply (proj2 (proj2 (getBundler_webpack
                         (Some (BabelPreset.mkCaller
                                  (Js.JsStringValue "babel-loader")
                                  Js.JsUndefined Js.JsUndefined))))).
  discriminate.
Defined.

(** X22: the platform the preset works with is web exactly when the
    caller's platform is the string web, or the caller's platform is falsy
    and the bundler is webpack; a caller that names another platform keeps
    it whatever the bundler. *)
Theorem resolvePlatform_web (caller : option BabelPreset.Caller) :
  (Js.isString (BabelPreset.resolvePlatform caller) "web" = true
   <-> (exists c, caller = Some c
                  /\ BabelPreset.caller_platform c = Js.JsStringValue "web")
       \/ ((forall c, caller = Some c ->
                      Js.truthy (BabelPreset.caller_platform c) = false)
           /\ Js.isString (BabelPreset.getBundler caller) "webpack" = true))
  /\ (forall c, caller = Some c ->
                Js.truthy (BabelPreset.caller_platform c) = true ->
                BabelPreset.resolvePlatform caller
                = BabelPreset.caller_platform c).
Proof.
  unfold BabelPreset.resolvePlatform.
  destruct caller as [c|].
  - destruct (Js.truthy (BabelPreset.caller_platform c)) eqn:Ht;
      cbn [negb andb].
    + split.
      * rewrite isString_iff. split.
        -- intros H. left. exists c. auto.
        -- intros [(c' & Hc & H)|[H _]].
           ++ now injection Hc as <-.
           ++ specialize (H c eq_refl). congruence.
      * intros c' Hc _. now injection Hc as <-.
    + destruct (Js.isString (BabelPreset.getBundler (Some c)) "webpack")
        eqn:Hw.
      * split.
        -- split; [|reflexivity]. intros _. right. split; [|reflexivity].
           intros c' Hc. now injection Hc as <-.
        -- intros c' Hc H. injection Hc as <-. congruence.
      * split.
        -- rewrite isString_iff. split.
           ++ intros H. left. exists c. auto.
           ++ intros [(c' & Hc & H)|[_ H]]; [|discriminate H].
              now injection Hc as <-.
        -- intros c' Hc H. injection Hc as <-. congruence.
  - cbn. split.
    + split; [discriminate|].
      intros [(c & H & _)|[_ H]]; discriminate H.
    + intros c H. discriminate H.
Qed.

Lemma resolvePlatform_web_witness :
  BabelPreset.resolvePlatform
    (Some (BabelPreset.mkCaller (Js.JsStringValue "babel-loader")
             Js.JsUndefined (Js.JsStringValue "ios")))
  = Js.JsStringValue "ios".
Proof.
  apply (proj2 (resolvePlatform_web
                  (Some (BabelPreset.mkCaller
                           (Js.JsStringValue "babel-loader")
                           Js.JsUndefined (Js.JsStringValue "ios"))))
           (BabelPreset.mkCaller (Js.JsStringValue "babel-loader")
              Js.JsUndefined (Js.JsStringValue "ios")));
    reflexivity.
Defined.

(** Taking a successful run of the preset apart. *)
Ltac preset_run H :=
  unfold BabelPreset.babelPresetExpo, BabelPreset.getAliasPlugin in H;
  let icons := fresh "hasIcons" in
  let rean := fresh "hasReanimated" in
  let Hi := fresh "Hicons" in
  let Hr := fresh "Hreanimated" in
  match type of H with
  | context [BabelPreset.hasModule ?r "@expo/vector-icons"] =>
      destruct (BabelPreset.hasModule r "@expo/vector-icons")
        as [icons|] eqn:Hi; [|discriminate H]
  end;
  match type of H with
  | context [BabelPreset.hasModule ?r "react-native-reanimated"] =>
      destruct (BabelPreset.hasModule r "react-native-reanimated")
        as [rean|] eqn:Hr; [|destruct icons; discriminate H]
  end;
  destruct icons; cbv iota beta in H; cbn [negb] in H; cbv iota beta in H.

(** X23: the options handed to the Metro preset always disable its own
    JSX transform, whatever the user asked for; the import/export transform
    is disabled as the platform options say when they have the property,
    and otherwise exactly on web under webpack; the other four platform
    options are passed through; and the lazy-import filter is installed
    exactly when [lazyImports] is [true], the option being passed through
    as given otherwise. *)
Theorem babelPresetExpo_metro_options
    (resolve : string -> BabelPreset.Resolution)
    (caller : option BabelPreset.Caller)
    (options : option BabelPreset.Options)
    (out : BabelPreset.TransformOptions) :
  BabelPreset.babelPresetExpo resolve caller options = BabelPreset.Ok out ->
  let given := BabelPreset.platformOptionsOf caller options in
  exists m : BabelPreset.MetroPresetOptions,
    BabelPreset.presets out = [m]
    /\ BabelPreset.metro_useTransformReactJSXExperimental m = true
    /\ BabelPreset.metro_disableImportExportTransform m
       = match BabelPreset.disableImportExportTransform given with
         | Some value => value
         | None =>
             Some (Js.isString (BabelPreset.resolvePlatform caller) "web"
                   && Js.isString (BabelPreset.getBundler caller) "webpack")
         end
    /\ BabelPreset.metro_withDevTools m = BabelPreset.withDevTools given
    /\ BabelPreset.metro_disableFlowStripTypesTransform m
       = BabelPreset.disableFlowStripTypesTransform given
    /\ BabelPreset.metro_enableBabelRuntime m
       = BabelPreset.enableBabelRuntime given
    /\ BabelPreset.metro_unstable_transformProfile m
       = BabelPreset.unstable_transformProfile given
    /\ BabelPreset.metro_lazyImportExportTransform m
       = match BabelPreset.lazyImports (BabelPreset.optionsOf options) with
         | Some true => BabelPreset.LazyFilter
         | other => BabelPreset.LazyOption other
         end.
Proof.
  intros H given. preset_run H.
  all: injection H as <-.
  all: eexists; split; [reflexivity|]; cbn.
  all: unfold given, BabelPreset.platformOptionsOf, BabelPreset.optionsOf,
         BabelPreset.spreadDisableImportExport.
  all: destruct (Js.isString (BabelPreset.resolvePlatform caller) "web");
         cbn [andb]; repeat split; try reflexivity.
  all: try match goal with
           | |- context [BabelPreset.disableImportExportTransform ?x] =>
               destruct (BabelPreset.disableImportExportTransform x);
               reflexivity
           end.
  all: match goal with
       | |- context [BabelPreset.lazyImports ?x] =>
           destruct (BabelPreset.lazyImports x) as [[]|]; reflexivity
       end.
Qed.

Lemma babelPresetExpo_metro_options_witness :
  exists m : BabelPreset.MetroPresetOptions,
    [BabelPreset.mkMetroPresetOptions None None None None true (Some true)
       (BabelPreset.LazyOption None)] = [m]
    /\ BabelPreset.metro_useTransformReactJSXExperimental m = true
    /\ BabelPreset.metro_disableImportExportTransform m = Some true
    /\ BabelPreset.metro_withDevTools m = None
    /\ BabelPreset.metro_disableFlowStripTypesTransform m = None
    /\ BabelPreset.metro_enableBabelRuntime m = None
    /\ BabelPreset.metro_unstable_transformProfile m = None
    /\ BabelPreset.metro_lazyImportExportTransform m
       = BabelPreset.LazyOption None.
Proof.
  apply (babelPresetExpo_metro_options
           (fun _ => BabelPreset.ResolveError (Some "MODULE_NOT_FOUND")
                       "Cannot find module '@expo/vector-icons' or 'react-native-reanimated'")
           (Some (BabelPreset.mkCaller (Js.JsStringValue "babel-loader")
                    Js.JsUndefined Js.JsUndefined))
           None
           (BabelPreset.mkTransformOptions
              [BabelPreset.mkMetroPresetOptions None None None None true
                 (Some true) (BabelPreset.LazyOption None)]
              [BabelPreset.ObjectRestSpread false;
               BabelPreset.TransformReactJsx BabelPreset.Automatic
                 (Some "react");
               BabelPreset.ReactNativeWeb;
               BabelPreset.Decorators true;
               BabelPreset.ExportNamespaceFrom])).
  reflexivity.
Defined.

(** X24: in the plugin list of a successful run the object-rest-spread
    plugin with [loose: false] comes first, the decorators plugin with
    [legacy: true] is directly followed by the export-namespace plugin and
    after these comes at most the reanimated plugin; no plugin is listed
    twice; the web plugin is listed exactly on the web platform, the alias
    plugin exactly when the vector icons resolve, and the reanimated plugin
    exactly when it resolves and the [reanimated] option is not [false]. *)
Theorem babelPresetExpo_plugins
    (resolve : string -> BabelPreset.Resolution)
    (caller : option BabelPreset.Caller)
    (options : option BabelPreset.Options)
    (out : BabelPreset.TransformOptions) :
  BabelPreset.babelPresetExpo resolve caller options = BabelPreset.Ok out ->
  hd_error (BabelPreset.plugins out) = Some (BabelPreset.ObjectRestSpread false)
  /\ NoDup (BabelPreset.plugins out)
  /\ (exists before after,
        BabelPreset.plugins out
        = before ++ [BabelPreset.Decorators true; BabelPreset.ExportNamespaceFrom]
          ++ after
        /\ (after = [] \/ after = [BabelPreset.Reanimated]))
  /\ (In BabelPreset.ReactNativeWeb (BabelPreset.plugins out)
      <-> Js.isString (BabelPreset.resolvePlatform caller) "web" = true)
  /\ (In (BabelPreset.ModuleResolver "react-native-vector-icons"
                                     "@expo/vector-icons")
         (BabelPreset.plugins out)
      <-> BabelPreset.hasModule resolve "@expo/vector-icons"
          = BabelPreset.Ok true)
  /\ (In BabelPreset.Reanimated (BabelPreset.plugins out)
      <-> BabelPreset.hasModule resolve "react-native-reanimated"
          = BabelPreset.Ok true
          /\ BabelPreset.reanimated (BabelPreset.optionsOf options)
             <> Some false).
Proof.
  intros H. preset_run H.
  all: injection H as <-.
  all: rewrite ?Hicons, ?Hreanimated.
  all: cbn [BabelPreset.plugins].
  all: match goal with
       | |- _ /\ _ /\ ?P /\ _ =>
           assert (Hform : P)
             by (eexists; eexists; split; [reflexivity|];
                 match goal with
                 | |- context [if ?c then _ else _] => destruct c
                 end; auto)
       end.
  all: split; [|split; [|split; [exact Hform|]]]; clear Hform.
  all: unfold BabelPreset.optionsOf.
  all: destruct (Js.isString (BabelPreset.resolvePlatform caller) "web").
  all: match goal with
       | |- context [BabelPreset.useTransformReactJSXExperimental ?x] =>
           destruct (BabelPreset.useTransformReactJSXExperimental x)
             as [[]|]
       end.
  all: destruct hasReanimated.
  all: try match goal with
           | |- context [BabelPreset.reanimated ?x] =>
               destruct (BabelPreset.reanimated x) as [[]|]
           end.
  all: cbn [negb andb app hd_error].
  all: try reflexivity.
  all: try (repeat constructor; cbn [In]; intuition discriminate).
  all: cbn [In]; repeat split; intros;
         try reflexivity; try discriminate; try congruence;
         try (intuition (try discriminate; try congruence)).
Qed.

Lemma babelPresetExpo_plugins_witness :
  hd_error
    [BabelPreset.ObjectRestSpread false;
     BabelPreset.TransformReactJsx BabelPreset.Automatic (Some "react");
     BabelPreset.ModuleResolver "react-native-vector-icons" "@expo/vector-icons";
     BabelPreset.Decorators true;
     BabelPreset.ExportNamespaceFrom;
     BabelPreset.Reanimated]
  = Some (BabelPreset.ObjectRestSpread false).
Proof.
  apply (babelPresetExpo_plugins
           (fun name => BabelPreset.Resolved ("/node_modules/" ++ name))
           None None
           (BabelPreset.mkTransformOptions
              [BabelPreset.mkMetroPresetOptions None None None None true
                 (Some false) (BabelPreset.LazyOption None)]
              [BabelPreset.ObjectRestSpread false;
               BabelPreset.TransformReactJsx BabelPreset.Automatic
                 (Some "react");
               BabelPreset.ModuleResolver "react-native-vector-icons"
                 "@expo/vector-icons";
               BabelPreset.Decorators true;
               BabelPreset.ExportNamespaceFrom;
               BabelPreset.Reanimated])).
  reflexivity.
Defined.

(** X25: the JSX plugin is listed exactly when the platform options do not
    set [useTransformReactJSXExperimental] to [true]; its runtime is the
    [jsxRuntime] option, automatic when that is not given; it has no import
    source exactly under the classic runtime, and otherwise the import
    source is the [jsxImportSource] option, or [react] when that is not
    given or empty. *)
Theorem babelPresetExpo_jsx_plugin
    (resolve : string -> BabelPreset.Resolution)
    (caller : option BabelPreset.Caller)
    (options : option BabelPreset.Options)
    (out : BabelPreset.TransformOptions)
    (runtime : BabelPreset.JsxRuntime) (importSource : option string) :
  BabelPreset.babelPresetExpo resolve caller options = BabelPreset.Ok out ->
  In (BabelPreset.TransformReactJsx runtime importSource)
     (BabelPreset.plugins out)
  <-> BabelPreset.useTransformReactJSXExperimental
        (BabelPreset.platformOptionsOf caller options)
      <> Some true
      /\ runtime
         = match BabelPreset.jsxRuntime (BabelPreset.optionsOf options) with
           | Some r => r
           | None => BabelPreset.Automatic
           end
      /\ importSource
         = match runtime with
           | BabelPreset.Classic => None
           | BabelPreset.Automatic =>
               Some
                 match BabelPreset.jsxImportSource
                         (BabelPreset.optionsOf options)
                 with
                 | Some src => if JsString.truthy src then src else "react"
                 | None => "react"
                 end
           end.
Proof.
  intros H. preset_run H.
  all: injection H as <-.
  all: cbn [BabelPreset.plugins].
  all: unfold BabelPreset.platformOptionsOf, BabelPreset.optionsOf.
  all: destruct (Js.isString (BabelPreset.resolvePlatform caller) "web").
  all: match goal with
       | |- context [BabelPreset.useTransformReactJSXExperimental ?x] =>
           destruct (BabelPreset.useTransformReactJSXExperimental x)
             as [[]|]
       end.
  all: match goal with
       | |- context [BabelPreset.jsxRuntime ?x] =>
           destruct (BabelPreset.jsxRuntime x) as [[]|]
       end.
  all: match goal with
       | |- context [if ?c then [BabelPreset.Reanimated] else []] =>
           destruct c
       end.
  all: cbn [negb app In].
  all: split;
         [ intros Hin;
           repeat match goal with
                  | Hor : _ \/ _ |- _ => destruct Hor as [Hor|Hor]
                  end;
           try discriminate; try contradiction;
           match goal with
           | E : BabelPreset.TransformReactJsx _ _
                 = BabelPreset.TransformReactJsx _ _ |- _ =>
               injection E as <- <-
           end;
           (split; [discriminate|split; reflexivity])
         | intros (Hflag & -> & ->);
           try (exfalso; apply Hflag; reflexivity);
           auto 8 ].
Qed.

Lemma babelPresetExpo_jsx_plugin_witness :
  In (BabelPreset.TransformReactJsx BabelPreset.Classic None)
     [BabelPreset.ObjectRestSpread false;
      BabelPreset.TransformReactJsx BabelPreset.Classic None;
      BabelPreset.Decorators true;
      BabelPreset.ExportNamespaceFrom]
  <-> None <> Some true
      /\ BabelPreset.Classic = BabelPreset.Classic
      /\ @None string = None.
Proof.
  apply (babelPresetExpo_jsx_plugin
           (fun _ => BabelPreset.ResolveError (Some "MODULE_NOT_FOUND")
                       "Cannot find module '@expo/vector-icons' or 'react-native-reanimated'")
           None
           (Some (BabelPreset.mkOptions None None (Some BabelPreset.Classic)
                    (Some "preact") None None))
           (BabelPreset.mkTransformOptions
              [BabelPreset.mkMetroPresetOptions None None None None true
                 (Some false) (BabelPreset.LazyOption None)]
              [BabelPreset.ObjectRestSpread false;
               BabelPreset.TransformReactJsx BabelPreset.Classic None;
               BabelPreset.Decorators true;
               BabelPreset.ExportNamespaceFrom])
           BabelPreset.Classic None).
  reflexivity.
Defined.

Lemma prefix_inv (p s : string) :
  String.prefix p s = true -> exists b, s = (p ++ b)%string.
Proof.
  revert s. induction p as [|c p IH]; intros s H.
  - exists s. reflexivity.
  - destruct s as [|d s]; [discriminate H|]. cbn in H.
    destruct (Ascii.ascii_dec c d) as [<-|]; [|discriminate H].
    destruct (IH s H) as [b ->]. exists b. reflexivity.
Qed.

Lemma includes_inv (s searchString : string) :
  BabelPreset.includes s searchString = true ->
  exists a b, s = (a ++ searchString ++ b)%string.
Proof.
  induction s as [|c s IH]; cbn [BabelPreset.includes]; intros H.
  - rewrite orb_false_r in H. apply prefix_inv in H.
    destruct H as [b Hb]. exists "", b. exact Hb.
  - apply orb_true_iff in H. destruct H as [H|H].
    + apply prefix_inv in H. destruct H as [b Hb]. exists "", b. exact Hb.
    + destruct (IH H) as (a & b & ->). exists (String c a), b. reflexivity.
Qed.

(** X26: the lazy-import filter accepts a module specifier exactly when
    the specifier does not contain [./] anywhere and is not in the set of
    excluded names; in particular no specifier of a relative import is
    accepted. *)
Theorem lazyImportFilter_exact
    (lazyImportsSet : string -> bool) (importModuleSpecifier : string) :
  (BabelPreset.lazyImportFilter lazyImportsSet importModuleSpecifier = true
   <-> (forall a b, importModuleSpecifier <> (a ++ "./" ++ b)%string)
       /\ lazyImportsSet importModuleSpecifier = false)
  /\ (forall rest,
        BabelPreset.lazyImportFilter lazyImportsSet ("./" ++ rest)%string
        = false
        /\ BabelPreset.lazyImportFilter lazyImportsSet ("../" ++ rest)%string
           = false).
Proof.
  unfold BabelPreset.lazyImportFilter. split.
  - rewrite negb_true_iff, orb_false_iff. split.
    + intros [Hinc Hset]. split; [|exact Hset].
      intros a b ->. rewrite includes_append in Hinc. discriminate Hinc.
    + intros [Hno Hset]. split; [|exact Hset].
      destruct (BabelPreset.includes importModuleSpecifier "./") eqn:Hinc;
        [|reflexivity].
      apply includes_inv in Hinc. destruct Hinc as (a & b & Hab).
      exfalso. exact (Hno a b Hab).
  - intros rest. split.
    + pose proof (includes_append "" "./" rest) as H.
      cbn [String.append] in *. now rewrite H.
    + pose proof (includes_append "." "./" rest) as H.
      cbn [String.append] in *. now rewrite H.
Qed.

